(** * Bitwarden Secrets Manager Terraform provider: a shallow embedding

    The provider is glue between the Terraform plugin framework and the
    Bitwarden SDK client.  Both collaborators are outside the repository,
    so they appear here as data the callbacks receive (decoded requests)
    and as oracles the callbacks call (the SDK); the callbacks of
    [internal/provider] studied below are transcribed statement by
    statement.

    Go features that matter for the properties below and how they are
    rendered:
    - [types.String] is a three-state value (null / unknown / known);
    - a [(T, error)] result of the SDK is a value of [result T];
    - a nil interface or nil pointer is [None]; calling a method on it or
      dereferencing it ends the callback with [Panics];
    - effects on the remote service are threaded as an explicit client
      state, and the SDK calls of [Configure] are recorded in a call log. *)

From Stdlib Require Import String List Bool Arith Lia.
From stdpp Require Import base option list.
Import ListNotations.
Local Open Scope string_scope.
Local Open Scope list_scope.

(** ** terraform-plugin-framework: [types.String] *)

Module types.

Inductive String : Type :=
| StringNull
| StringUnknown
| StringValue (s : string).

Definition IsNull (v : String) : bool :=
  match v with StringNull => true | _ => false end.

Definition IsUnknown (v : String) : bool :=
  match v with StringUnknown => true | _ => false end.

(** [ValueString] is the known value, and the empty string for null and
    unknown. *)
Definition ValueString (v : String) : string :=
  match v with StringValue s => s | _ => "" end.

End types.

(** ** terraform-plugin-framework: diagnostics *)

Module diag.

Inductive Severity : Type := SeverityError | SeverityWarning.

Record Diagnostic : Type := mkDiagnostic {
  severity : Severity;
  attribute : option string;
  summary : string;
  detail : string
}.

Definition Diagnostics : Type := list Diagnostic.

Definition isError (d : Diagnostic) : bool :=
  match severity d with SeverityError => true | SeverityWarning => false end.

Definition HasError (ds : Diagnostics) : bool := existsb isError ds.

(** The framework skips a diagnostic that is already in the list.  The
    callbacks only ever add an error that differs from those added
    before it, so appending is what happens. *)
Definition Append (ds more : Diagnostics) : Diagnostics := ds ++ more.

Definition AddError (sum det : string) (ds : Diagnostics) : Diagnostics :=
  Append ds [mkDiagnostic SeverityError None sum det].

Definition AddAttributeError (root sum det : string) (ds : Diagnostics)
  : Diagnostics :=
  Append ds [mkDiagnostic SeverityError (Some root) sum det].

End diag.

(** ** Go results and panics *)

(** A Go [(T, error)] pair of an SDK call: the value, or the error's
    message. *)
Inductive result (T : Type) : Type :=
| Ok (v : T)
| Err (msg : string).
Arguments Ok {T} v.
Arguments Err {T} msg.

(** How a callback ends: it returns, leaving the response [r], or a
    run-time panic unwinds it with the response as it was at that point. *)
Inductive Outcome (R : Type) : Type :=
| Returns (r : R)
| Panics (r : R).
Arguments Returns {R} r.
Arguments Panics {R} r.

Definition response {R : Type} (o : Outcome R) : R :=
  match o with Returns r => r | Panics r => r end.

(** Go's [==] on strings. *)
Definition str_eq (a b : string) : bool := String.eqb a b.
Definition str_ne (a b : string) : bool := negb (String.eqb a b).

(** ** provider.go *)

Module BitwardenSecretsProvider.

Record bitwardenProviderModel : Type := {
  ApiUrl : types.String;
  IdentityUrl : types.String;
  AccessToken : types.String
}.

(** [request.Config.Get(ctx, &config)]: the decoded model and the
    diagnostics of decoding. *)
Record ConfigureRequest : Type := {
  Config_Get : bitwardenProviderModel * diag.Diagnostics
}.

(** The process environment as [os.Getenv] sees it: the empty string for
    a variable that is not set. *)
Definition Environ : Type := string -> string.

(** The constructors the provider registers. *)
Inductive DataSourceCtor : Type := NewProjectDataSource | NewSecretDataSource.
Inductive ResourceCtor : Type := NewProjectResource | NewSecretResource.

Definition DataSources : list DataSourceCtor :=
  [NewProjectDataSource; NewSecretDataSource].

Definition Resources : list ResourceCtor :=
  [NewSecretResource; NewSecretResource].

Definition eqb_DataSourceCtor (a b : DataSourceCtor) : bool :=
  match a, b with
  | NewProjectDataSource, NewProjectDataSource => true
  | NewSecretDataSource, NewSecretDataSource => true
  | _, _ => false
  end.

Definition eqb_ResourceCtor (a b : ResourceCtor) : bool :=
  match a, b with
  | NewProjectResource, NewProjectResource => true
  | NewSecretResource, NewSecretResource => true
  | _, _ => false
  end.

Definition occurrences {A : Type} (eqb : A -> A -> bool) (x : A) (l : list A)
  : nat := List.length (List.filter (fun y => eqb x y) l).

(** [Metadata]: the provider's type name and version. *)
Definition Metadata (version : string) : string * string :=
  ("bitwarden", version).

(** Lines 113-131 of [Configure]: the three settings after the
    environment and the configuration have been consulted. *)
Definition resolve (getenv : Environ) (config : bitwardenProviderModel)
  : string * string * string :=
  let apiUrl := getenv "BW_API_URL" in
  let identityUrl := getenv "BW_IDENTITY_URL" in
  let accessToken := getenv "BW_ACCESS_TOKEN" in
  let apiUrl :=
    if negb (types.IsNull (ApiUrl config)) then types.ValueString (ApiUrl config)
    else "https://api.bitwarden.com" in
  let identityUrl :=
    if negb (types.IsNull (IdentityUrl config)) then types.ValueString (IdentityUrl config)
    else "https://identity.bitwarden.com/connect/token" in
  let accessToken :=
    if negb (types.IsNull (AccessToken config)) then types.ValueString (AccessToken config)
    else accessToken in
  (apiUrl, identityUrl, accessToken).

Definition resolvedApiUrl (getenv : Environ) (c : bitwardenProviderModel)
  : string := fst (fst (resolve getenv c)).
Definition resolvedIdentityUrl (getenv : Environ) (c : bitwardenProviderModel)
  : string := snd (fst (resolve getenv c)).
Definition resolvedAccessToken (getenv : Environ) (c : bitwardenProviderModel)
  : string := snd (resolve getenv c).

(** The condition of line 146. *)
Definition apiUrlCondition (apiUrl : string) : bool :=
  str_ne apiUrl "https://api.bitwarden.com"
  || str_ne apiUrl "https://api.bitwarden.eu".

(** Lines 146-149. *)
Definition normalizeApiUrl (apiUrl : string) : string :=
  if apiUrlCondition apiUrl then apiUrl ++ "/api" else apiUrl.

(** Lines 152-156. *)
Definition normalizeIdentityUrl (identityUrl : string) : string :=
  if str_eq identityUrl "https://identity.bitwarden.com"
     || str_eq identityUrl "https://identity.bitwarden.eu"
  then identityUrl ++ "/connect/token"
  else identityUrl ++ "/identity/connect/token".

Definition unknownDetail (what var : string) : string :=
  "The provider cannot create the Bitwarden client as there is an unknown configuration value for the Bitwarden "
  ++ what ++ ". "
  ++ "Either target apply the source of the value first, set the value statically in the configuration, or use the "
  ++ var ++ " environment variable.".

Section Configure.

(** Non-nil values of [bitwarden.BitwardenClientInterface]; the nil
    interface is [None]. *)
Variable Client : Type.

(** The two SDK entry points [Configure] uses.  [NewBitwardenClient]
    returns the pair Go returns: a possibly nil client and a possibly
    nil error. *)
Record Sdk : Type := {
  NewBitwardenClient : string -> string -> option Client * option string;
  AccessTokenLogin : Client -> string -> option string
}.

Inductive SdkCall : Type :=
| CallNewBitwardenClient (apiUrl identityUrl : string)
| CallAccessTokenLogin (receiver : option Client) (accessToken : string).

Record ConfigureResponse : Type := {
  Diagnostics : diag.Diagnostics;
  DataSourceData : option Client;
  ResourceData : option Client
}.

(** What a run of [Configure] leaves behind: how it ended and the SDK
    calls it made, in order. *)
Record Run : Type := {
  outcome : Outcome ConfigureResponse;
  calls : list SdkCall
}.

Definition onlyDiags (ds : diag.Diagnostics) : ConfigureResponse :=
  {| Diagnostics := ds; DataSourceData := None; ResourceData := None |}.

Definition Configure (sdk : Sdk) (getenv : Environ)
    (request : ConfigureRequest) : Run :=
  let '(config, diags) := Config_Get request in
  let ds := diag.Append [] diags in
  if diag.HasError ds then {| outcome := Returns (onlyDiags ds); calls := [] |}
  else
  let ds :=
    if types.IsUnknown (ApiUrl config)
    then diag.AddAttributeError "api_url" "Unknown Bitwarden API url"
           (unknownDetail "API url" "BW_API_URL") ds
    else ds in
  let ds :=
    if types.IsUnknown (IdentityUrl config)
    then diag.AddAttributeError "Identity_url" "Unknown Bitwarden Identity url"
           (unknownDetail "Identity url" "BW_IDENTITY_URL") ds
    else ds in
  let ds :=
    if types.IsUnknown (AccessToken config)
    then diag.AddAttributeError "access_token" "Unknown Bitwarden access token"
           (unknownDetail "access token" "BW_ACCESS_TOKEN") ds
    else ds in
  if diag.HasError ds then {| outcome := Returns (onlyDiags ds); calls := [] |}
  else
  let '(apiUrl, identityUrl, accessToken) := resolve getenv config in
  let ds :=
    if str_eq accessToken ""
    then diag.AddAttributeError "access_token" "Missing Bitwarden access token"
           ("The provider cannot create the Bitwarden client as there is a missing or empty value for the access token."
            ++ "Set the access token in the configuration or use the BW_ACCESS_TOKEN environment variable.")
           ds
    else ds in
  if diag.HasError ds then {| outcome := Returns (onlyDiags ds); calls := [] |}
  else
  let apiUrl := normalizeApiUrl apiUrl in
  let identityUrl := normalizeIdentityUrl identityUrl in
  let '(bitwardenClient, err) := NewBitwardenClient sdk apiUrl identityUrl in
  let ds :=
    match err with
    | Some e =>
        diag.AddError "Error while creating the bitwarden client"
          ("validate the api and identity url are correct: " ++ e) ds
    | None => ds
    end in
  let log := [CallNewBitwardenClient apiUrl identityUrl;
              CallAccessTokenLogin bitwardenClient accessToken] in
  match bitwardenClient with
  | None =>
      (* method call on a nil interface value *)
      {| outcome := Panics (onlyDiags ds); calls := log |}
  | Some c =>
      let err := AccessTokenLogin sdk c accessToken in
      let ds :=
        match err with
        | Some e =>
            diag.AddError "Unable to login to Bitwarden Secrets Manager"
              ("Either the access token is not valid or there is some communication issues: " ++ e)
              ds
        | None => ds
        end in
      {| outcome := Returns {| Diagnostics := ds;
                               DataSourceData := Some c;
                               ResourceData := Some c |};
         calls := log |}
  end.

End Configure.

Arguments NewBitwardenClient {Client} _ _ _.
Arguments AccessTokenLogin {Client} _ _ _.
Arguments CallNewBitwardenClient {Client} _ _.
Arguments CallAccessTokenLogin {Client} _ _.
Arguments Diagnostics {Client} _.
Arguments DataSourceData {Client} _.
Arguments ResourceData {Client} _.
Arguments outcome {Client} _.
Arguments calls {Client} _.
Arguments Configure {Client} _ _ _.

(** Whether a run came to its end with no error reported. *)
Definition succeeded {Client : Type} (run : Run Client) : bool :=
  match outcome run with
  | Returns r => negb (diag.HasError (Diagnostics r))
  | Panics _ => false
  end.

(** No attribute of the configuration is unknown. *)
Definition allKnown (config : bitwardenProviderModel) : bool :=
  negb (types.IsUnknown (ApiUrl config))
  && negb (types.IsUnknown (IdentityUrl config))
  && negb (types.IsUnknown (AccessToken config)).

(** The arguments [Configure] gives to [NewBitwardenClient]. *)
Definition clientApiUrl (getenv : Environ) (c : bitwardenProviderModel)
  : string := normalizeApiUrl (resolvedApiUrl getenv c).
Definition clientIdentityUrl (getenv : Environ) (c : bitwardenProviderModel)
  : string := normalizeIdentityUrl (resolvedIdentityUrl getenv c).

(** What is said of a run in which the construction of the client
    failed and gave back [returnedClient]: the failure is reported, the
    login is still called on that client, and the run goes on to store
    it in both fields of the response. *)
Definition carriesOn {Client : Type} (returnedClient : option Client)
    (accessToken : string) (run : Run Client) : Prop :=
  diag.HasError (Diagnostics (response (outcome run))) = true
  /\ In (CallAccessTokenLogin returnedClient accessToken) (calls run)
  /\ exists r, outcome run = Returns r
       /\ DataSourceData r = returnedClient
       /\ ResourceData r = returnedClient.

End BitwardenSecretsProvider.

(** ** github.com/bitwarden/sdk-go: the records and the client interface

    Only the fields the provider reads are kept.  [ProjectID] of a secret
    is a [*string]: [None] is the nil pointer. *)

Module bitwarden.

Record ProjectResponse : Type := mkProjectResponse {
  pID : string;
  pName : string;
  pOrganizationID : string;
  pCreationDate : string;
  pRevisionDate : string
}.

Record SecretResponse : Type := mkSecretResponse {
  ID : string;
  Key : string;
  Value : string;
  Note : string;
  OrganizationID : string;
  ProjectID : option string
}.

(** [BitwardenClientInterface] over a remote service whose state has type
    [S].  Every operation takes its Go arguments in the order of the call
    sites, then the state before, and gives the Go result and the state
    after. *)
Record BitwardenClientInterface (S : Type) : Type := {
  Projects_Get : string -> S -> result ProjectResponse * S;
  Projects_Create : string -> string -> S -> result ProjectResponse * S;
  Projects_Update : string -> string -> string -> S
                    -> result ProjectResponse * S;
  Secrets_Get : string -> S -> result SecretResponse * S;
  Secrets_Create : string -> string -> string -> string -> list string -> S
                   -> result SecretResponse * S;
  Secrets_Update : string -> string -> string -> string -> string
                   -> list string -> S -> result SecretResponse * S
}.
Arguments Projects_Get {S} _ _ _.
Arguments Projects_Create {S} _ _ _ _.
Arguments Projects_Update {S} _ _ _ _ _.
Arguments Secrets_Get {S} _ _ _.
Arguments Secrets_Create {S} _ _ _ _ _ _ _.
Arguments Secrets_Update {S} _ _ _ _ _ _ _ _.

(** The batch deletions of the interface.  [D] is the SDK's report on
    the batch ([*ProjectsDeleteResponse], [*SecretsDeleteResponse]), which
    the provider does not look at. *)
Record BitwardenDeleteInterface (S D : Type) : Type := {
  Projects_Delete : list string -> S -> result D * S;
  Secrets_Delete : list string -> S -> result D * S
}.
Arguments Projects_Delete {S D} _ _ _.
Arguments Secrets_Delete {S D} _ _ _.

End bitwarden.

(** ** The loops every callback is made of *)

(** [for _, x := range items { r, err := call(x); if err != nil { ...;
    return }; acc = append(acc, r) }]: the responses collected so far grow
    at the end; the first error stops the loop. *)
Fixpoint collect {S I R : Type} (call : I -> S -> result R * S)
    (items : list I) (acc : list R) (s : S) : result (list R) * S :=
  match items with
  | [] => (Ok acc, s)
  | x :: rest =>
      match call x s with
      | (Err e, s') => (Err e, s')
      | (Ok r, s') => collect call rest (acc ++ [r]) s'
      end
  end.

(** [for i, r := range rs { data[i] = conv(r) }], started at index [i].
    [conv] gives [None] when building the element dereferences a nil
    pointer, which panics; so does an index outside [data]. *)
Fixpoint assignEach {R M : Type} (conv : R -> option M) (rs : list R)
    (i : nat) (data : list M) : option (list M) :=
  match rs with
  | [] => Some data
  | r :: rest =>
      match conv r with
      | None => None
      | Some m =>
          if Nat.ltb i (List.length data) then assignEach conv rest (S i) (<[i := m]> data)
          else None
      end
  end.

(** The response of a resource or data-source callback: the diagnostics
    and the state, [None] while [State.Set] has not been called. *)
Record Response (M : Type) : Type := {
  Diagnostics : diag.Diagnostics;
  State : option M
}.
Arguments Diagnostics {M} _.
Arguments State {M} _.

(** [uuid.GenerateUUID()]: the identifier and the error, as Go returns
    them. *)
Definition GenerateUUID : Type := string * option string.

(** The diagnostic both [Create] callbacks add when the identifier
    cannot be generated. *)
Definition idGenerationError : diag.Diagnostic :=
  diag.mkDiagnostic diag.SeverityError (Some "resource_ID")
    "Unable to generate resource id"
    "The projects couldn't be created, due to and id generation issue".

(** [request.ProviderData], an [any]: nil, a value that implements
    [bitwarden.BitwardenClientInterface], or a value of another type, of
    which only the name [%T] prints is kept. *)
Inductive ProviderData (C : Type) : Type :=
| ProviderNil
| ProviderClient (c : C)
| ProviderOther (goType : string).
Arguments ProviderNil {C}.
Arguments ProviderClient {C} c.
Arguments ProviderOther {C} goType.

(** The body the four [Configure] methods of the resources and data
    sources share; they differ in the two texts.  [client] is the
    receiver's field before the call; the result is the field after it
    and the diagnostics. *)
Definition configureClient {C : Type} (summary expected : string)
    (client : option C) (providerData : ProviderData C)
  : option C * diag.Diagnostics :=
  match providerData with
  | ProviderNil => (client, [])
  | ProviderClient c => (Some c, [])
  | ProviderOther goType =>
      (client,
       diag.AddError summary
         (expected ++ ", got: " ++ goType
          ++ ". Please report this issue to the provider developers.") [])
  end.

(** ** data_bitwarden_project.go *)

Module projectDataSource.

Record projectModel : Type := {
  CreationDate : types.String;
  Id : types.String;
  Name : types.String;
  OrganizationId : types.String;
  RevisionDate : types.String
}.

Record projectDataSourceModel : Type := {
  Projects : list projectModel;
  ID : types.String
}.

(** The element [Read] builds from a response. *)
Definition fromResponse (project : bitwarden.ProjectResponse) : projectModel :=
  {| CreationDate := types.StringValue (bitwarden.pCreationDate project);
     Name := types.StringValue (bitwarden.pName project);
     Id := types.StringValue (bitwarden.pID project);
     OrganizationId := types.StringValue (bitwarden.pOrganizationID project);
     RevisionDate := types.StringValue (bitwarden.pRevisionDate project) |}.

Definition getCall {S : Type} (client : bitwarden.BitwardenClientInterface S)
    (projectInfo : projectModel) : S -> result bitwarden.ProjectResponse * S :=
  bitwarden.Projects_Get client (types.ValueString (Id projectInfo)).

(** [Metadata]: the type name, from the provider's. *)
Definition Metadata (ProviderTypeName : string) : string :=
  ProviderTypeName ++ "_projects".

Definition Configure {C : Type}
  : option C -> ProviderData C -> option C * diag.Diagnostics :=
  configureClient "Unexpected Data Source Configure Type"
    "Expected *bitwarden.BitwardenClientInterface".

Inductive Loop (S : Type) : Type :=
| LoopDone (projects : list projectModel) (s : S)
| LoopError (s : S).
Arguments LoopDone {S} _ _.
Arguments LoopError {S} _.

Section Read.
Context {S : Type} (client : bitwarden.BitwardenClientInterface S).

(** The body of the [range] loop of [Read].  [pending] is what is left
    of the slice the [range] clause was evaluated on; [projects] is
    [info.Projects], which the body appends to. *)
Fixpoint readLoop (pending projects : list projectModel) (s : S) : Loop S :=
  match pending with
  | [] => LoopDone projects s
  | projectInfo :: rest =>
      match getCall client projectInfo s with
      | (Err _, s') => LoopError s'
      | (Ok project, s') =>
          let secretModel := fromResponse project in
          readLoop rest (projects ++ [secretModel]) s'
      end
  end.

(** [Read]; the argument is the model [request.Config.Get] decodes into
    [info] (its diagnostics are dropped by the code). *)
Definition Read (info : projectDataSourceModel) (s : S)
  : Outcome (Response projectDataSourceModel) * S :=
  match readLoop (Projects info) (Projects info) s with
  | LoopError s' =>
      (Returns {| Diagnostics :=
                    diag.AddError "Unable to list projects under organization id"
                      "Validate that the organization id is not empty and is valid." [];
                  State := None |}, s')
  | LoopDone projects s' =>
      let info := {| Projects := projects; ID := ID info |} in
      (Returns {| Diagnostics := diag.Append [] []; State := Some info |}, s')
  end.
End Read.

End projectDataSource.

(** ** The secret data source *)

Module secretDataSource.

Record secretModel : Type := {
  Id : types.String;
  Key : types.String;
  Value : types.String;
  Note : types.String;
  OrganizationId : types.String;
  ProjectId : types.String
}.

Record secretDataSourceModel : Type := {
  Secrets : list secretModel;
  ID : types.String
}.

(** The element [Read] builds from a response; [*secret.ProjectID]
    panics on a nil pointer, which is [None] here. *)
Definition fromResponse (secret : bitwarden.SecretResponse)
  : option secretModel :=
  match bitwarden.ProjectID secret with
  | None => None
  | Some projectID =>
      Some {| Key := types.StringValue (bitwarden.Key secret);
              Value := types.StringValue (bitwarden.Value secret);
              Note := types.StringValue (bitwarden.Note secret);
              ProjectId := types.StringValue projectID;
              OrganizationId := types.StringValue (bitwarden.OrganizationID secret);
              Id := types.StringValue (bitwarden.ID secret) |}
  end.

Definition getCall {S : Type} (client : bitwarden.BitwardenClientInterface S)
    (secretInfo : secretModel) : S -> result bitwarden.SecretResponse * S :=
  bitwarden.Secrets_Get client (types.ValueString (Id secretInfo)).

(** [Metadata]: the type name, from the provider's. *)
Definition Metadata (ProviderTypeName : string) : string :=
  ProviderTypeName ++ "_secrets".

Definition Configure {C : Type}
  : option C -> ProviderData C -> option C * diag.Diagnostics :=
  configureClient "Unexpected Data Source Configure Type"
    "Expected *bitwarden.BitwardenClientInterface".

Inductive Loop (S : Type) : Type :=
| LoopDone (secrets : list secretModel) (s : S)
| LoopError (s : S)
| LoopPanic (s : S).
Arguments LoopDone {S} _ _.
Arguments LoopError {S} _.
Arguments LoopPanic {S} _.

Section Read.
Context {S : Type} (client : bitwarden.BitwardenClientInterface S).

Fixpoint readLoop (pending secrets : list secretModel) (s : S) : Loop S :=
  match pending with
  | [] => LoopDone secrets s
  | secretInfo :: rest =>
      match getCall client secretInfo s with
      | (Err _, s') => LoopError s'
      | (Ok secret, s') =>
          match fromResponse secret with
          | None => LoopPanic s'
          | Some secretModel => readLoop rest (secrets ++ [secretModel]) s'
          end
      end
  end.

Definition Read (info : secretDataSourceModel) (s : S)
  : Outcome (Response secretDataSourceModel) * S :=
  match readLoop (Secrets info) (Secrets info) s with
  | LoopPanic s' => (Panics {| Diagnostics := []; State := None |}, s')
  | LoopError s' =>
      (Returns {| Diagnostics :=
                    diag.AddError "Unable to list secrets under organization id"
                      "Validate that the organization id is not empty and is valid." [];
                  State := None |}, s')
  | LoopDone secrets s' =>
      let info := {| Secrets := secrets; ID := ID info |} in
      (Returns {| Diagnostics := diag.Append [] []; State := Some info |}, s')
  end.
End Read.

End secretDataSource.

(** ** resource_bitwarden_project.go *)

Module ProjectResource.

Record projectItemModel : Type := {
  Name : types.String;
  ProjectId : types.String;
  OrganizationId : types.String
}.

Record ProjectResourceModel : Type := {
  Projects : list projectItemModel;
  Id : types.String
}.

(** The element the write-back loops of [Create], [Read] and [Update]
    build from a response. *)
Definition fromResponse (projectItem : bitwarden.ProjectResponse)
  : projectItemModel :=
  {| Name := types.StringValue (bitwarden.pName projectItem);
     OrganizationId := types.StringValue (bitwarden.pOrganizationID projectItem);
     ProjectId := types.StringValue (bitwarden.pID projectItem) |}.

(** [Metadata]: the type name, from the provider's. *)
Definition Metadata (ProviderTypeName : string) : string :=
  ProviderTypeName ++ "_project".

Definition Configure {C : Type}
  : option C -> ProviderData C -> option C * diag.Diagnostics :=
  configureClient "Unexpected Resource Configure Type"
    "Expected bitwarden.BitwardenClientInterface".

(** The identifiers [Delete] gathers. *)
Definition idsToDelete (data : ProjectResourceModel) : list string :=
  List.map (fun project => types.ValueString (ProjectId project)) (Projects data).

Section Callbacks.
Context {S : Type} (client : bitwarden.BitwardenClientInterface S).

Definition createCall (project : projectItemModel)
  : S -> result bitwarden.ProjectResponse * S :=
  bitwarden.Projects_Create client
    (types.ValueString (Name project))
    (types.ValueString (OrganizationId project)).

Definition getCall (project : projectItemModel)
  : S -> result bitwarden.ProjectResponse * S :=
  bitwarden.Projects_Get client (types.ValueString (ProjectId project)).

(** [Create]; [uuid] is what [uuid.GenerateUUID()] returns and [plan]
    what [request.Plan.Get] decodes, with its diagnostics. *)
Definition Create (uuid : GenerateUUID)
    (plan : ProjectResourceModel * diag.Diagnostics) (s : S)
  : Outcome (Response ProjectResourceModel) * S :=
  let '(data, diags) := plan in
  let ds := diag.Append [] diags in
  if diag.HasError ds then (Returns {| Diagnostics := ds; State := None |}, s)
  else
  let '(resourceId, err) := uuid in
  let ds :=
    match err with
    | Some _ => diag.Append ds [idGenerationError]
    | None => ds
    end in
  let data := {| Projects := Projects data; Id := types.StringValue resourceId |} in
  match collect createCall (Projects data) [] s with
  | (Err e, s') =>
      (Returns {| Diagnostics :=
                    diag.AddError "Error creating project"
                      ("Could not create project, unexpected error: " ++ e) ds;
                  State := None |}, s')
  | (Ok projectsCreation, s') =>
      match assignEach (fun r => Some (fromResponse r)) projectsCreation 0
              (Projects data) with
      | None => (Panics {| Diagnostics := ds; State := None |}, s')
      | Some projects =>
          let data := {| Projects := projects; Id := Id data |} in
          (Returns {| Diagnostics := diag.Append ds []; State := Some data |}, s')
      end
  end.

(** [Read]; [prior] is what [request.State.Get] decodes. *)
Definition Read (prior : ProjectResourceModel * diag.Diagnostics) (s : S)
  : Outcome (Response ProjectResourceModel) * S :=
  let '(data, diags) := prior in
  let ds := diag.Append [] diags in
  if diag.HasError ds then (Returns {| Diagnostics := ds; State := None |}, s)
  else
  match collect getCall (Projects data) [] s with
  | (Err e, s') =>
      (Returns {| Diagnostics :=
                    diag.AddError "Error creating project"
                      ("Could not find project, unexpected error: " ++ e) ds;
                  State := None |}, s')
  | (Ok projects, s') =>
      match assignEach (fun r => Some (fromResponse r)) projects 0
              (Projects data) with
      | None => (Panics {| Diagnostics := ds; State := None |}, s')
      | Some projects =>
          let data := {| Projects := projects; Id := Id data |} in
          (Returns {| Diagnostics := diag.Append ds []; State := Some data |}, s')
      end
  end.

Definition updateCall (project : projectItemModel)
  : S -> result bitwarden.ProjectResponse * S :=
  bitwarden.Projects_Update client
    (types.ValueString (ProjectId project))
    (types.ValueString (OrganizationId project))
    (types.ValueString (Name project)).

Definition Update (plan : ProjectResourceModel * diag.Diagnostics) (s : S)
  : Outcome (Response ProjectResourceModel) * S :=
  let '(data, diags) := plan in
  let ds := diag.Append [] diags in
  if diag.HasError ds then (Returns {| Diagnostics := ds; State := None |}, s)
  else
  match collect updateCall (Projects data) [] s with
  | (Err e, s') =>
      (Returns {| Diagnostics :=
                    diag.AddError "Error creating project"
                      ("Could not update project, unexpected error: " ++ e) ds;
                  State := None |}, s')
  | (Ok projects, s') =>
      match assignEach (fun r => Some (fromResponse r)) projects 0
              (Projects data) with
      | None => (Panics {| Diagnostics := ds; State := None |}, s')
      | Some projects =>
          let data := {| Projects := projects; Id := Id data |} in
          (Returns {| Diagnostics := diag.Append ds []; State := Some data |}, s')
      end
  end.
End Callbacks.

Section Delete.
Context {S D : Type} (deleter : bitwarden.BitwardenDeleteInterface S D).

(** [Delete]; [prior] is what [request.State.Get] decodes.  The callback
    does not touch the state of the response. *)
Definition Delete (prior : ProjectResourceModel * diag.Diagnostics) (s : S)
  : Outcome (Response ProjectResourceModel) * S :=
  let '(data, diags) := prior in
  let ds := diag.Append [] diags in
  if diag.HasError ds then (Returns {| Diagnostics := ds; State := None |}, s)
  else
  let projectsToDelete := idsToDelete data in
  match bitwarden.Projects_Delete deleter projectsToDelete s with
  | (Err e, s') =>
      (Returns {| Diagnostics :=
                    diag.AddError "Error creating project"
                      ("Could not delete project, unexpected error: " ++ e) ds;
                  State := None |}, s')
  | (Ok _, s') => (Returns {| Diagnostics := ds; State := None |}, s')
  end.
End Delete.

End ProjectResource.

(** ** The secret resource *)

Module SecretResource.

Record secretItemModel : Type := {
  Key : types.String;
  Value : types.String;
  Note : types.String;
  SecretId : types.String;
  ProjectId : types.String;
  OrganizationId : types.String
}.

Record SecretResourceModel : Type := {
  Secrets : list secretItemModel;
  Id : types.String
}.

(** The element [Create] and [Read] write back.  The literal names no
    [ProjectId], which is therefore the zero [types.String]: null. *)
Definition fromResponse (projectItem : bitwarden.SecretResponse)
  : secretItemModel :=
  {| Key := types.StringValue (bitwarden.Key projectItem);
     Value := types.StringValue (bitwarden.Value projectItem);
     Note := types.StringValue (bitwarden.Note projectItem);
     OrganizationId := types.StringValue (bitwarden.OrganizationID projectItem);
     SecretId := types.StringValue (bitwarden.ID projectItem);
     ProjectId := types.StringNull |}.

(** The element [Update] writes back; [*projectItem.ProjectID] panics on
    a nil pointer. *)
Definition fromUpdateResponse (projectItem : bitwarden.SecretResponse)
  : option secretItemModel :=
  match bitwarden.ProjectID projectItem with
  | None => None
  | Some projectID =>
      Some {| SecretId := types.StringValue (bitwarden.ID projectItem);
              Key := types.StringValue (bitwarden.Key projectItem);
              Value := types.StringValue (bitwarden.Value projectItem);
              Note := types.StringValue (bitwarden.Note projectItem);
              OrganizationId := types.StringValue (bitwarden.OrganizationID projectItem);
              ProjectId := types.StringValue projectID |}
  end.

(** [Metadata]: the type name, from the provider's. *)
Definition Metadata (ProviderTypeName : string) : string :=
  ProviderTypeName ++ "_secret".

Definition Configure {C : Type}
  : option C -> ProviderData C -> option C * diag.Diagnostics :=
  configureClient "Unexpected Resource Configure Type"
    "Expected bitwarden.BitwardenClientInterface".

(** The identifiers [Delete] gathers. *)
Definition idsToDelete (data : SecretResourceModel) : list string :=
  List.map (fun secret => types.ValueString (SecretId secret)) (Secrets data).

Section Callbacks.
Context {S : Type} (client : bitwarden.BitwardenClientInterface S).

Definition createCall (secret : secretItemModel)
  : S -> result bitwarden.SecretResponse * S :=
  bitwarden.Secrets_Create client
    (types.ValueString (Key secret))
    (types.ValueString (Value secret))
    (types.ValueString (Note secret))
    (types.ValueString (OrganizationId secret))
    [types.ValueString (ProjectId secret)].

Definition getCall (secret : secretItemModel)
  : S -> result bitwarden.SecretResponse * S :=
  bitwarden.Secrets_Get client (types.ValueString (SecretId secret)).

Definition updateCall (secret : secretItemModel)
  : S -> result bitwarden.SecretResponse * S :=
  bitwarden.Secrets_Update client
    (types.ValueString (SecretId secret))
    (types.ValueString (Key secret))
    (types.ValueString (Value secret))
    (types.ValueString (Note secret))
    (types.ValueString (OrganizationId secret))
    [types.ValueString (ProjectId secret)].

Definition Create (uuid : GenerateUUID)
    (plan : SecretResourceModel * diag.Diagnostics) (s : S)
  : Outcome (Response SecretResourceModel) * S :=
  let '(data, diags) := plan in
  let ds := diag.Append [] diags in
  if diag.HasError ds then (Returns {| Diagnostics := ds; State := None |}, s)
  else
  let '(resourceId, err) := uuid in
  let ds :=
    match err with
    | Some _ => diag.Append ds [idGenerationError]
    | None => ds
    end in
  let data := {| Secrets := Secrets data; Id := types.StringValue resourceId |} in
  match collect createCall (Secrets data) [] s with
  | (Err e, s') =>
      (Returns {| Diagnostics :=
                    diag.AddError "Error creating secret"
                      ("Could not create secret, unexpected error: " ++ e) ds;
                  State := None |}, s')
  | (Ok secretsCreation, s') =>
      match assignEach (fun r => Some (fromResponse r)) secretsCreation 0
              (Secrets data) with
      | None => (Panics {| Diagnostics := ds; State := None |}, s')
      | Some secrets =>
          let data := {| Secrets := secrets; Id := Id data |} in
          (Returns {| Diagnostics := diag.Append ds []; State := Some data |}, s')
      end
  end.

Definition Read (prior : SecretResourceModel * diag.Diagnostics) (s : S)
  : Outcome (Response SecretResourceModel) * S :=
  let '(data, diags) := prior in
  let ds := diag.Append [] diags in
  if diag.HasError ds then (Returns {| Diagnostics := ds; State := None |}, s)
  else
  match collect getCall (Secrets data) [] s with
  | (Err e, s') =>
      (Returns {| Diagnostics :=
                    diag.AddError "Error creating secret"
                      ("Could not find secret, unexpected error: " ++ e) ds;
                  State := None |}, s')
  | (Ok secrets, s') =>
      match assignEach (fun r => Some (fromResponse r)) secrets 0
              (Secrets data) with
      | None => (Panics {| Diagnostics := ds; State := None |}, s')
      | Some secrets =>
          let data := {| Secrets := secrets; Id := Id data |} in
          (Returns {| Diagnostics := diag.Append ds []; State := Some data |}, s')
      end
  end.

Definition Update (plan : SecretResourceModel * diag.Diagnostics) (s : S)
  : Outcome (Response SecretResourceModel) * S :=
  let '(data, diags) := plan in
  let ds := diag.Append [] diags in
  if diag.HasError ds then (Returns {| Diagnostics := ds; State := None |}, s)
  else
  match collect updateCall (Secrets data) [] s with
  | (Err e, s') =>
      (Returns {| Diagnostics :=
                    diag.AddError "Error creating secret"
                      ("Could not update secret, unexpected error: " ++ e) ds;
                  State := None |}, s')
  | (Ok secrets, s') =>
      match assignEach fromUpdateResponse secrets 0 (Secrets data) with
      | None => (Panics {| Diagnostics := ds; State := None |}, s')
      | Some secrets =>
          let data := {| Secrets := secrets; Id := Id data |} in
          (Returns {| Diagnostics := diag.Append ds []; State := Some data |}, s')
      end
  end.
End Callbacks.

Section Delete.
Context {S D : Type} (deleter : bitwarden.BitwardenDeleteInterface S D).

Definition Delete (prior : SecretResourceModel * diag.Diagnostics) (s : S)
  : Outcome (Response SecretResourceModel) * S :=
  let '(data, diags) := prior in
  let ds := diag.Append [] diags in
  if diag.HasError ds then (Returns {| Diagnostics := ds; State := None |}, s)
  else
  let secretsToDelete := idsToDelete data in
  match bitwarden.Secrets_Delete deleter secretsToDelete s with
  | (Err e, s') =>
      (Returns {| Diagnostics :=
                    diag.AddError "Error creating secret"
                      ("Could not delete secret, unexpected error: " ++ e) ds;
                  State := None |}, s')
  | (Ok _, s') => (Returns {| Diagnostics := ds; State := None |}, s')
  end.
End Delete.

End SecretResource.

(** ** Clients to run the callbacks against *)

(** An in-memory service that stores what it is given and returns what it
    stored: the reference behaviour of a backing client. *)
Module memory.

Record Store : Type := {
  projects : list bitwarden.ProjectResponse;
  secrets : list bitwarden.SecretResponse
}.

Definition empty : Store := {| projects := []; secrets := [] |}.

(** Server-assigned identifiers: the n-th record of a kind gets n marks
    after the kind's prefix.  [Projects_Create] takes its two strings in
    the order [ProjectResource.Create] passes them, the name first. *)
Fixpoint tally (n : nat) : string :=
  match n with
  | O => ""
  | S k => "i" ++ tally k
  end.

Definition projectId (n : nat) : string := "p" ++ tally n.
Definition secretId (n : nat) : string := "s" ++ tally n.

Definition findProject (id : string) (st : Store)
  : option bitwarden.ProjectResponse :=
  List.find (fun r => str_eq (bitwarden.pID r) id) (projects st).

Definition findSecret (id : string) (st : Store)
  : option bitwarden.SecretResponse :=
  List.find (fun r => str_eq (bitwarden.ID r) id) (secrets st).

Definition Projects_Get (id : string) (st : Store)
  : result bitwarden.ProjectResponse * Store :=
  match findProject id st with
  | Some r => (Ok r, st)
  | None => (Err "project not found", st)
  end.

Definition Projects_Create (name organizationID : string) (st : Store)
  : result bitwarden.ProjectResponse * Store :=
  let r := bitwarden.mkProjectResponse
             (projectId (List.length (projects st))) name organizationID
             "" "" in
  (Ok r, {| projects := projects st ++ [r]; secrets := secrets st |}).

Definition Projects_Update (id organizationID name : string) (st : Store)
  : result bitwarden.ProjectResponse * Store :=
  match findProject id st with
  | None => (Err "project not found", st)
  | Some old =>
      let r := bitwarden.mkProjectResponse id name organizationID
                 (bitwarden.pCreationDate old) (bitwarden.pRevisionDate old) in
      (Ok r,
       {| projects :=
            List.map (fun p => if str_eq (bitwarden.pID p) id then r else p)
              (projects st);
          secrets := secrets st |})
  end.

Definition Secrets_Get (id : string) (st : Store)
  : result bitwarden.SecretResponse * Store :=
  match findSecret id st with
  | Some r => (Ok r, st)
  | None => (Err "secret not found", st)
  end.

Definition Secrets_Create (key value note organizationID : string)
    (projectIDs : list string) (st : Store)
  : result bitwarden.SecretResponse * Store :=
  let r := bitwarden.mkSecretResponse
             (secretId (List.length (secrets st))) key value note
             organizationID (List.head projectIDs) in
  (Ok r, {| projects := projects st; secrets := secrets st ++ [r] |}).

Definition Secrets_Update (id key value note organizationID : string)
    (projectIDs : list string) (st : Store)
  : result bitwarden.SecretResponse * Store :=
  match findSecret id st with
  | None => (Err "secret not found", st)
  | Some _ =>
      let r := bitwarden.mkSecretResponse id key value note organizationID
                 (List.head projectIDs) in
      (Ok r,
       {| projects := projects st;
          secrets :=
            List.map (fun x => if str_eq (bitwarden.ID x) id then r else x)
              (secrets st) |})
  end.

(** The identifiers follow the positions. *)
Definition wellFormed (st : Store) : Prop :=
  (forall k r, secrets st !! k = Some r -> bitwarden.ID r = secretId k)
  /\ (forall k p, projects st !! k = Some p -> bitwarden.pID p = projectId k).

Definition holdsSecret (st : Store) (r : bitwarden.SecretResponse) : Prop :=
  In r (secrets st).

Definition holdsProject (st : Store) (p : bitwarden.ProjectResponse) : Prop :=
  In p (projects st).

(** Batch deletion drops the records whose identifier is listed. *)
Definition listed (ids : list string) (id : string) : bool :=
  existsb (str_eq id) ids.

Definition Projects_Delete (ids : list string) (st : Store)
  : result unit * Store :=
  (Ok tt,
   {| projects :=
        List.filter (fun p => negb (listed ids (bitwarden.pID p))) (projects st);
      secrets := secrets st |}).

Definition Secrets_Delete (ids : list string) (st : Store)
  : result unit * Store :=
  (Ok tt,
   {| projects := projects st;
      secrets :=
        List.filter (fun r => negb (listed ids (bitwarden.ID r))) (secrets st) |}).

Definition deleter : bitwarden.BitwardenDeleteInterface Store unit :=
  {| bitwarden.Projects_Delete := Projects_Delete;
     bitwarden.Secrets_Delete := Secrets_Delete |}.

Definition client : bitwarden.BitwardenClientInterface Store :=
  {| bitwarden.Projects_Get := Projects_Get;
     bitwarden.Projects_Create := Projects_Create;
     bitwarden.Projects_Update := Projects_Update;
     bitwarden.Secrets_Get := Secrets_Get;
     bitwarden.Secrets_Create := Secrets_Create;
     bitwarden.Secrets_Update := Secrets_Update |}.

End memory.

(** What it is for a backing service to store what one of its Create
    operations is given and to return it from the matching Get.  [create]
    and [get] are the two operations, [key] the identifier of a record,
    [given a r] says that record [r] carries the arguments [a]; [Inv] is
    the service's own invariant and [holds s r] says that [r] is stored
    in state [s]. *)
Record Faithful {St A R : Type}
    (create : A -> St -> result R * St) (get : string -> St -> result R * St)
    (key : R -> string) (given : A -> R -> Prop)
    (Inv : St -> Prop) (holds : St -> R -> Prop) : Prop := {
  create_inv : forall a s res s',
      Inv s -> create a s = (res, s') -> Inv s';
  get_inv : forall id s res s',
      Inv s -> get id s = (res, s') -> Inv s';
  create_stores : forall a s r s',
      Inv s -> create a s = (Ok r, s') -> given a r /\ holds s' r;
  create_keeps : forall a s res s' r0,
      Inv s -> holds s r0 -> create a s = (res, s') -> holds s' r0;
  get_returns : forall s r,
      Inv s -> holds s r -> exists s', get (key r) s = (Ok r, s');
  get_keeps : forall id s res s' r0,
      Inv s -> holds s r0 -> get id s = (res, s') -> holds s' r0
}.

(** The arguments of the two Create operations, as the callbacks pass
    them. *)
Definition secretArgs : Type := string * string * string * string * list string.
Definition projectArgs : Type := string * string.

Definition secretGiven (a : secretArgs) (r : bitwarden.SecretResponse) : Prop :=
  let '(key, value, note, organizationID, projectIDs) := a in
  bitwarden.Key r = key /\ bitwarden.Value r = value
  /\ bitwarden.Note r = note /\ bitwarden.OrganizationID r = organizationID
  /\ bitwarden.ProjectID r = List.head projectIDs.

Definition projectGiven (a : projectArgs) (r : bitwarden.ProjectResponse) : Prop :=
  let '(name, organizationID) := a in
  bitwarden.pName r = name /\ bitwarden.pOrganizationID r = organizationID.

Definition FaithfulSecrets {St : Type} (client : bitwarden.BitwardenClientInterface St)
    (Inv : St -> Prop) (holds : St -> bitwarden.SecretResponse -> Prop) : Prop :=
  Faithful
    (fun a : secretArgs =>
       let '(key, value, note, organizationID, projectIDs) := a in
       bitwarden.Secrets_Create client key value note organizationID projectIDs)
    (bitwarden.Secrets_Get client) bitwarden.ID secretGiven Inv holds.

Definition FaithfulProjects {St : Type} (client : bitwarden.BitwardenClientInterface St)
    (Inv : St -> Prop) (holds : St -> bitwarden.ProjectResponse -> Prop) : Prop :=
  Faithful
    (fun a : projectArgs =>
       let '(name, organizationID) := a in
       bitwarden.Projects_Create client name organizationID)
    (bitwarden.Projects_Get client) bitwarden.pID projectGiven Inv holds.

(** What a secret of the plan and the element of the state after
    Create and Read have in common, and what they do not: the element's
    project id is null. *)
Definition secretReadBack (planned state : SecretResource.secretItemModel) : Prop :=
  SecretResource.Key state
    = types.StringValue (types.ValueString (SecretResource.Key planned))
  /\ SecretResource.Value state
    = types.StringValue (types.ValueString (SecretResource.Value planned))
  /\ SecretResource.Note state
    = types.StringValue (types.ValueString (SecretResource.Note planned))
  /\ SecretResource.OrganizationId state
    = types.StringValue (types.ValueString (SecretResource.OrganizationId planned))
  /\ SecretResource.ProjectId state = types.StringNull.

Definition projectReadBack (planned state : ProjectResource.projectItemModel) : Prop :=
  ProjectResource.Name state
    = types.StringValue (types.ValueString (ProjectResource.Name planned))
  /\ ProjectResource.OrganizationId state
    = types.StringValue (types.ValueString (ProjectResource.OrganizationId planned)).

(** A service that answers every project call with [p] and every secret
    call with [r]; it has no state. *)
Definition canned (p : bitwarden.ProjectResponse) (r : bitwarden.SecretResponse)
  : bitwarden.BitwardenClientInterface unit :=
  {| bitwarden.Projects_Get := fun _ s => (Ok p, s);
     bitwarden.Projects_Create := fun _ _ s => (Ok p, s);
     bitwarden.Projects_Update := fun _ _ _ s => (Ok p, s);
     bitwarden.Secrets_Get := fun _ s => (Ok r, s);
     bitwarden.Secrets_Create := fun _ _ _ _ _ s => (Ok r, s);
     bitwarden.Secrets_Update := fun _ _ _ _ _ _ s => (Ok r, s) |}.

(** SDK entry points for [Configure] whose client is the pair of URLs it
    was built for.  [alwaysUp] never fails; [downWith c] reports a
    construction error and hands back the client [c]. *)
Definition alwaysUp : BitwardenSecretsProvider.Sdk (string * string) :=
  {| BitwardenSecretsProvider.NewBitwardenClient :=
       fun apiUrl identityUrl => (Some (apiUrl, identityUrl), None);
     BitwardenSecretsProvider.AccessTokenLogin := fun _ _ => None |}.

Definition downWith (c : option (string * string))
  : BitwardenSecretsProvider.Sdk (string * string) :=
  {| BitwardenSecretsProvider.NewBitwardenClient :=
       fun _ _ => (c, Some "library initialisation failed");
     BitwardenSecretsProvider.AccessTokenLogin := fun _ _ => None |}.

(** An environment in which nothing is set, and one that sets the three
    variables the provider reads. *)
Definition noEnv : BitwardenSecretsProvider.Environ := fun _ => "".

Definition fullEnv : BitwardenSecretsProvider.Environ :=
  fun name =>
    if str_eq name "BW_API_URL" then "https://vault.example.org"
    else if str_eq name "BW_IDENTITY_URL" then "https://login.example.org"
    else if str_eq name "BW_ACCESS_TOKEN" then "envtoken"
    else "".

Definition request (c : BitwardenSecretsProvider.bitwardenProviderModel)
  : BitwardenSecretsProvider.ConfigureRequest :=
  {| BitwardenSecretsProvider.Config_Get := (c, []) |}.

(** The configuration of the example scenario. *)
Definition tok123 : BitwardenSecretsProvider.bitwardenProviderModel :=
  {| BitwardenSecretsProvider.ApiUrl := types.StringNull;
     BitwardenSecretsProvider.IdentityUrl := types.StringNull;
     BitwardenSecretsProvider.AccessToken := types.StringValue "tok123" |}.

(** A configuration that sets nothing. *)
Definition allNull : BitwardenSecretsProvider.bitwardenProviderModel :=
  {| BitwardenSecretsProvider.ApiUrl := types.StringNull;
     BitwardenSecretsProvider.IdentityUrl := types.StringNull;
     BitwardenSecretsProvider.AccessToken := types.StringNull |}.

(** A plan for one secret and a plan for one project, as Terraform
    hands them to [Create]: the computed attributes are still unknown. *)
Definition oneSecret (key value note organizationId projectId : string)
  : SecretResource.SecretResourceModel :=
  {| SecretResource.Secrets :=
       [{| SecretResource.Key := types.StringValue key;
           SecretResource.Value := types.StringValue value;
           SecretResource.Note := types.StringValue note;
           SecretResource.SecretId := types.StringUnknown;
           SecretResource.ProjectId := types.StringValue projectId;
           SecretResource.OrganizationId := types.StringValue organizationId |}];
     SecretResource.Id := types.StringUnknown |}.

Definition oneProject (name organizationId : string)
  : ProjectResource.ProjectResourceModel :=
  {| ProjectResource.Projects :=
       [{| ProjectResource.Name := types.StringValue name;
           ProjectResource.ProjectId := types.StringUnknown;
           ProjectResource.OrganizationId := types.StringValue organizationId |}];
     ProjectResource.Id := types.StringUnknown |}.

(** A store holding one project and one secret of that project, and a
    secret that belongs to no project. *)
Definition storedProject : bitwarden.ProjectResponse :=
  bitwarden.mkProjectResponse "p" "infra" "org-1" "2024-01-01" "2024-01-02".

Definition storedSecret : bitwarden.SecretResponse :=
  bitwarden.mkSecretResponse "s" "db_password" "hunter2" "rotate" "org-1"
    (Some "p").

Definition orphanSecret : bitwarden.SecretResponse :=
  bitwarden.mkSecretResponse "s" "db_password" "hunter2" "rotate" "org-1" None.

Definition oneEach : memory.Store :=
  {| memory.projects := [storedProject]; memory.secrets := [storedSecret] |}.

(** Data-source requests for one id. *)
Definition projectById (id : string) : projectDataSource.projectModel :=
  {| projectDataSource.CreationDate := types.StringNull;
     projectDataSource.Id := types.StringValue id;
     projectDataSource.Name := types.StringNull;
     projectDataSource.OrganizationId := types.StringNull;
     projectDataSource.RevisionDate := types.StringNull |}.

Definition secretById (id : string) : secretDataSource.secretModel :=
  {| secretDataSource.Id := types.StringValue id;
     secretDataSource.Key := types.StringNull;
     secretDataSource.Value := types.StringNull;
     secretDataSource.Note := types.StringNull;
     secretDataSource.OrganizationId := types.StringNull;
     secretDataSource.ProjectId := types.StringNull |}.

(** The diagnostics [Configure] adds for the unknown attributes of a
    configuration, in the order it adds them. *)
Definition unknownDiagnostics
    (config : BitwardenSecretsProvider.bitwardenProviderModel)
  : diag.Diagnostics :=
  (if types.IsUnknown (BitwardenSecretsProvider.ApiUrl config)
   then [diag.mkDiagnostic diag.SeverityError (Some "api_url")
           "Unknown Bitwarden API url"
           (BitwardenSecretsProvider.unknownDetail "API url" "BW_API_URL")]
   else [])
  ++ (if types.IsUnknown (BitwardenSecretsProvider.IdentityUrl config)
      then [diag.mkDiagnostic diag.SeverityError (Some "Identity_url")
              "Unknown Bitwarden Identity url"
              (BitwardenSecretsProvider.unknownDetail "Identity url" "BW_IDENTITY_URL")]
      else [])
  ++ (if types.IsUnknown (BitwardenSecretsProvider.AccessToken config)
      then [diag.mkDiagnostic diag.SeverityError (Some "access_token")
              "Unknown Bitwarden access token"
              (BitwardenSecretsProvider.unknownDetail "access token" "BW_ACCESS_TOKEN")]
      else []).

(** An SDK that builds the client and then refuses the login. *)
Definition loginRefused : BitwardenSecretsProvider.Sdk (string * string) :=
  {| BitwardenSecretsProvider.NewBitwardenClient :=
       fun apiUrl identityUrl => (Some (apiUrl, identityUrl), None);
     BitwardenSecretsProvider.AccessTokenLogin :=
       fun _ _ => Some "invalid access token" |}.

(** What the framework hands to the [Configure] of a resource or data
    source: the value the provider's [Configure] left in
    [DataSourceData] / [ResourceData]. *)
Definition handedOver {C : Type} (stored : option C) : ProviderData C :=
  match stored with
  | None => ProviderNil
  | Some c => ProviderClient c
  end.

(** A configuration whose api URL is not known yet. *)
Definition apiUnknown : BitwardenSecretsProvider.bitwardenProviderModel :=
  {| BitwardenSecretsProvider.ApiUrl := types.StringUnknown;
     BitwardenSecretsProvider.IdentityUrl := types.StringNull;
     BitwardenSecretsProvider.AccessToken := types.StringValue "tok123" |}.

(** A callback over a list of items stops at the first item whose client
    call fails: the calls before it have been made, the ones after it
    are not, the state of the service is the one the failing call left,
    the error is reported under [summary] with the client's message
    after [prefix], and no state is written. *)
Definition stopsAtFirstError {St I M R : Type}
    (callback : list I -> St -> Outcome (Response M) * St)
    (call : I -> St -> result R * St)
    (before : diag.Diagnostics) (summary prefix : string) : Prop :=
  forall (pre post : list I) (x : I) (s s1 s2 : St) (rs : list R) (e : string),
    collect call pre [] s = (Ok rs, s1) ->
    call x s1 = (Err e, s2) ->
    callback (pre ++ x :: post) s =
      (Returns
         {| Diagnostics :=
              before ++ [diag.mkDiagnostic diag.SeverityError None summary
                           (prefix ++ e)];
            State := None |},
       s2).

(** The diagnostics of a [Create] after the identifier was generated. *)
Definition afterUUID (uuid : GenerateUUID) (diags : diag.Diagnostics)
  : diag.Diagnostics :=
  match snd uuid with
  | Some _ => diags ++ [idGenerationError]
  | None => diags
  end.

(** What it is for a backing service to apply the updates it is given:
    [update a] rewrites the record whose identifier is [target a], which
    then carries [a] and is what Get returns; the other records stay. *)
Record FaithfulUpdate {St A R : Type}
    (update : A -> St -> result R * St) (get : string -> St -> result R * St)
    (key : R -> string) (target : A -> string) (given : A -> R -> Prop)
    (Inv : St -> Prop) (holds : St -> R -> Prop) : Prop := {
  update_inv : forall a s res s',
      Inv s -> update a s = (res, s') -> Inv s';
  updated_get_inv : forall id s res s',
      Inv s -> get id s = (res, s') -> Inv s';
  update_stores : forall a s r s',
      Inv s -> update a s = (Ok r, s') ->
      given a r /\ key r = target a /\ holds s' r;
  update_keeps : forall a s res s' r0,
      Inv s -> holds s r0 -> key r0 <> target a ->
      update a s = (res, s') -> holds s' r0;
  updated_get_returns : forall s r,
      Inv s -> holds s r -> exists s', get (key r) s = (Ok r, s');
  updated_get_keeps : forall id s res s' r0,
      Inv s -> holds s r0 -> get id s = (res, s') -> holds s' r0
}.

(** The arguments of [Projects().Update] as [ProjectResource.Update]
    passes them: project id, organization, name. *)
Definition projectUpdateArgs : Type := string * string * string.

Definition projectUpdateOf (project : ProjectResource.projectItemModel)
  : projectUpdateArgs :=
  (types.ValueString (ProjectResource.ProjectId project),
   types.ValueString (ProjectResource.OrganizationId project),
   types.ValueString (ProjectResource.Name project)).

Definition projectUpdateGiven (a : projectUpdateArgs)
    (r : bitwarden.ProjectResponse) : Prop :=
  let '(_, organizationID, name) := a in
  bitwarden.pName r = name /\ bitwarden.pOrganizationID r = organizationID.

Definition FaithfulProjectUpdates {St : Type}
    (client : bitwarden.BitwardenClientInterface St)
    (Inv : St -> Prop) (holds : St -> bitwarden.ProjectResponse -> Prop) : Prop :=
  FaithfulUpdate
    (fun a : projectUpdateArgs =>
       let '(id, organizationID, name) := a in
       bitwarden.Projects_Update client id organizationID name)
    (bitwarden.Projects_Get client) bitwarden.pID
    (fun a : projectUpdateArgs => fst (fst a)) projectUpdateGiven Inv holds.

(** A project of the plan of an update and the element of the state
    afterwards: the three attributes are the planned ones. *)
Definition projectUpdatedAs (planned state : ProjectResource.projectItemModel)
  : Prop :=
  ProjectResource.Name state
    = types.StringValue (types.ValueString (ProjectResource.Name planned))
  /\ ProjectResource.ProjectId state
    = types.StringValue (types.ValueString (ProjectResource.ProjectId planned))
  /\ ProjectResource.OrganizationId state
    = types.StringValue (types.ValueString (ProjectResource.OrganizationId planned)).

(** The plan that renames the stored project. *)
Definition renameStored (name : string) : ProjectResource.ProjectResourceModel :=
  {| ProjectResource.Projects :=
       [{| ProjectResource.Name := types.StringValue name;
           ProjectResource.ProjectId := types.StringValue "p";
           ProjectResource.OrganizationId := types.StringValue "org-1" |}];
     ProjectResource.Id := types.StringValue "tracking" |}.

(** The field a resource or data source is left with after its
    [Configure] was handed [stored]. *)
Definition clientAfter {C : Type} (before stored : option C) : option C :=
  match stored with
  | Some c => Some c
  | None => before
  end.

(** The diagnostic of a [Configure] that was handed a value of another
    type. *)
Definition unexpectedType (summary expected goType : string) : diag.Diagnostic :=
  diag.mkDiagnostic diag.SeverityError None summary
    (expected ++ ", got: " ++ goType
     ++ ". Please report this issue to the provider developers.").

(** Diagnostics of a request that could not be decoded. *)
Definition decodeFailed : diag.Diagnostics :=
  [diag.mkDiagnostic diag.SeverityError None "Value Conversion Error"
     "An unexpected error was encountered trying to build a value."].

(** An element of a prior state that tracks the project [id]. *)
Definition trackedProject (id : string) : ProjectResource.projectItemModel :=
  {| ProjectResource.Name := types.StringNull;
     ProjectResource.ProjectId := types.StringValue id;
     ProjectResource.OrganizationId := types.StringNull |}.

(** The plan that updates the stored secret. *)
Definition updateStored (value : string) : SecretResource.SecretResourceModel :=
  {| SecretResource.Secrets :=
       [{| SecretResource.Key := types.StringValue "db_password";
           SecretResource.Value := types.StringValue value;
           SecretResource.Note := types.StringValue "rotate";
           SecretResource.SecretId := types.StringValue "s";
           SecretResource.ProjectId := types.StringValue "p";
           SecretResource.OrganizationId := types.StringValue "org-1" |}];
     SecretResource.Id := types.StringValue "tracking" |}.

(** The type name under which a registered constructor's resource or
    data source is served: the [Metadata] of what the constructor
    returns. *)
Definition resourceTypeName (ProviderTypeName : string)
    (c : BitwardenSecretsProvider.ResourceCtor) : string :=
  match c with
  | BitwardenSecretsProvider.NewProjectResource =>
      ProjectResource.Metadata ProviderTypeName
  | BitwardenSecretsProvider.NewSecretResource =>
      SecretResource.Metadata ProviderTypeName
  end.

Definition dataSourceTypeName (ProviderTypeName : string)
    (c : BitwardenSecretsProvider.DataSourceCtor) : string :=
  match c with
  | BitwardenSecretsProvider.NewProjectDataSource =>
      projectDataSource.Metadata ProviderTypeName
  | BitwardenSecretsProvider.NewSecretDataSource =>
      secretDataSource.Metadata ProviderTypeName
  end.

(** A client that records the calls made on it, in order, with their
    arguments as passed, and answers every project call with [p] and
    every secret call with [r]; the state of the service is the record. *)
Inductive ClientCall : Type :=
| CallProjectsGet (projectID : string)
| CallProjectsCreate (first second : string)
| CallProjectsUpdate (first second third : string)
| CallSecretsGet (secretID : string)
| CallSecretsCreate (key value note organizationID : string)
    (projectIDs : list string)
| CallSecretsUpdate (secretID key value note organizationID : string)
    (projectIDs : list string).

Definition recorder (p : bitwarden.ProjectResponse) (r : bitwarden.SecretResponse)
  : bitwarden.BitwardenClientInterface (list ClientCall) :=
  {| bitwarden.Projects_Get :=
       fun id log => (Ok p, log ++ [CallProjectsGet id]);
     bitwarden.Projects_Create :=
       fun a b log => (Ok p, log ++ [CallProjectsCreate a b]);
     bitwarden.Projects_Update :=
       fun a b c log => (Ok p, log ++ [CallProjectsUpdate a b c]);
     bitwarden.Secrets_Get :=
       fun id log => (Ok r, log ++ [CallSecretsGet id]);
     bitwarden.Secrets_Create :=
       fun key value note org ids log =>
         (Ok r, log ++ [CallSecretsCreate key value note org ids]);
     bitwarden.Secrets_Update :=
       fun id key value note org ids log =>
         (Ok r, log ++ [CallSecretsUpdate id key value note org ids]) |}.

(** The Create call each element of a plan stands for. *)
Definition projectCreateCallOf (project : ProjectResource.projectItemModel)
  : ClientCall :=
  CallProjectsCreate (types.ValueString (ProjectResource.Name project))
    (types.ValueString (ProjectResource.OrganizationId project)).

Definition secretCreateCallOf (secret : SecretResource.secretItemModel)
  : ClientCall :=
  CallSecretsCreate (types.ValueString (SecretResource.Key secret))
    (types.ValueString (SecretResource.Value secret))
    (types.ValueString (SecretResource.Note secret))
    (types.ValueString (SecretResource.OrganizationId secret))
    [types.ValueString (SecretResource.ProjectId secret)].



(** sdk-go declares [Projects().Create(organizationID, name)]: the
    organization comes first.  A client that stores what that operation
    is given, read in the SDK's order. *)
Definition projectGivenSdk (a : projectArgs) (r : bitwarden.ProjectResponse)
  : Prop :=
  let '(organizationID, name) := a in
  bitwarden.pOrganizationID r = organizationID /\ bitwarden.pName r = name.

Definition FaithfulProjectsSdk {St : Type}
    (client : bitwarden.BitwardenClientInterface St)
    (Inv : St -> Prop) (holds : St -> bitwarden.ProjectResponse -> Prop) : Prop :=
  Faithful
    (fun a : projectArgs =>
       let '(organizationID, name) := a in
       bitwarden.Projects_Create client organizationID name)
    (bitwarden.Projects_Get client) bitwarden.pID projectGivenSdk Inv holds.

(** A project of the plan and the element of the state after Create and
    Read against such a client.  [ProjectResource.Create] passes the name
    first and the organization second, so the two come back exchanged. *)
Definition projectReadBackSwapped
    (planned state : ProjectResource.projectItemModel) : Prop :=
  ProjectResource.Name state
    = types.StringValue (types.ValueString (ProjectResource.OrganizationId planned))
  /\ ProjectResource.OrganizationId state
    = types.StringValue (types.ValueString (ProjectResource.Name planned)).

(** A client seen through the SDK's signature: its [Projects_Create]
    takes the organization first and the name second. *)
Definition sdkOrder {S : Type} (client : bitwarden.BitwardenClientInterface S)
  : bitwarden.BitwardenClientInterface S :=
  {| bitwarden.Projects_Get := bitwarden.Projects_Get client;
     bitwarden.Projects_Create :=
       fun organizationID name =>
         bitwarden.Projects_Create client name organizationID;
     bitwarden.Projects_Update := bitwarden.Projects_Update client;
     bitwarden.Secrets_Get := bitwarden.Secrets_Get client;
     bitwarden.Secrets_Create := bitwarden.Secrets_Create client;
     bitwarden.Secrets_Update := bitwarden.Secrets_Update client |}.

(** * Properties *)

(** ** Diagnostics *)

Lemma HasError_Append (ds more : diag.Diagnostics) :
  diag.HasError (diag.Append ds more) = diag.HasError ds || diag.HasError more.
Proof. unfold diag.HasError, diag.Append. apply existsb_app. Qed.

Lemma HasError_AddError (sum det : string) (ds : diag.Diagnostics) :
  diag.HasError (diag.AddError sum det ds) = true.
Proof.
  unfold diag.AddError. rewrite HasError_Append. simpl.
  apply orb_true_r.
Qed.

Lemma HasError_AddAttributeError (root sum det : string) (ds : diag.Diagnostics) :
  diag.HasError (diag.AddAttributeError root sum det ds) = true.
Proof.
  unfold diag.AddAttributeError. rewrite HasError_Append. simpl.
  apply orb_true_r.
Qed.

Lemma Append_nil_l (ds : diag.Diagnostics) : diag.Append [] ds = ds.
Proof. reflexivity. Qed.

Lemma Append_nil_r (ds : diag.Diagnostics) : diag.Append ds [] = ds.
Proof. unfold diag.Append. apply app_nil_r. Qed.

Lemma str_eq_true (a b : string) : str_eq a b = true <-> a = b.
Proof. unfold str_eq. apply String.eqb_eq. Qed.

Lemma str_eq_false (a b : string) : str_eq a b = false <-> a <> b.
Proof. unfold str_eq. apply String.eqb_neq. Qed.

(** ** Provider configuration *)

Section ConfigureFacts.
Import BitwardenSecretsProvider.
Context {Client : Type} (sdk : Sdk Client) (getenv : Environ).

(** Past the three gates, [Configure] is the construction of the client
    followed by the login. *)
Lemma Configure_past_gates config diags :
  diag.HasError diags = false ->
  allKnown config = true ->
  resolvedAccessToken getenv config <> "" ->
  Configure sdk getenv {| Config_Get := (config, diags) |} =
    let apiUrl := normalizeApiUrl (resolvedApiUrl getenv config) in
    let identityUrl := normalizeIdentityUrl (resolvedIdentityUrl getenv config) in
    let accessToken := resolvedAccessToken getenv config in
    let '(bitwardenClient, err) := NewBitwardenClient sdk apiUrl identityUrl in
    let ds :=
      match err with
      | Some e =>
          diag.AddError "Error while creating the bitwarden client"
            ("validate the api and identity url are correct: " ++ e) diags
      | None => diags
      end in
    let log := [CallNewBitwardenClient apiUrl identityUrl;
                CallAccessTokenLogin bitwardenClient accessToken] in
    match bitwardenClient with
    | None => {| outcome := Panics (onlyDiags Client ds); calls := log |}
    | Some c =>
        {| outcome :=
             Returns {| Diagnostics :=
                          match AccessTokenLogin sdk c accessToken with
                          | Some e =>
                              diag.AddError "Unable to login to Bitwarden Secrets Manager"
                                ("Either the access token is not valid or there is some communication issues: " ++ e)
                                ds
                          | None => ds
                          end;
                        DataSourceData := Some c;
                        ResourceData := Some c |};
           calls := log |}
    end.
Proof.
  intros Hd Hk Ht. unfold allKnown in Hk.
  apply andb_true_iff in Hk as [Hk Hk3]. apply andb_true_iff in Hk as [Hk1 Hk2].
  apply negb_true_iff in Hk1, Hk2, Hk3.
  apply str_eq_false in Ht.
  unfold resolvedApiUrl, resolvedIdentityUrl, resolvedAccessToken in *.
  unfold Configure. cbn [Config_Get]. rewrite Append_nil_l, Hd, Hk1, Hk2, Hk3, Hd.
  destruct (resolve getenv config) as [[a i] t]. cbn [fst snd] in *.
  rewrite Ht, Hd. reflexivity.
Qed.

(** With an empty token [Configure] stops at the third gate, having
    reported the missing token. *)
Lemma Configure_empty_token config diags :
  diag.HasError diags = false ->
  allKnown config = true ->
  resolvedAccessToken getenv config = "" ->
  succeeded (Configure sdk getenv {| Config_Get := (config, diags) |}) = false.
Proof.
  intros Hd Hk Ht. unfold allKnown in Hk.
  apply andb_true_iff in Hk as [Hk Hk3]. apply andb_true_iff in Hk as [Hk1 Hk2].
  apply negb_true_iff in Hk1, Hk2, Hk3.
  apply str_eq_true in Ht.
  unfold resolvedAccessToken in Ht.
  unfold Configure. cbn [Config_Get]. rewrite Append_nil_l, Hd, Hk1, Hk2, Hk3, Hd.
  destruct (resolve getenv config) as [[a i] t]. cbn [fst snd] in *.
  rewrite Ht, HasError_AddAttributeError.
  unfold succeeded. cbn. rewrite HasError_AddAttributeError. reflexivity.
Qed.

End ConfigureFacts.

Section ProviderClaims.
Import BitwardenSecretsProvider.

(** C5. For every resolved api URL the condition of line 146
  ([apiUrl != "https://api.bitwarden.com" || apiUrl !=
  "https://api.bitwarden.eu"]) is true, so "/api" is always appended;
  in particular for the two SaaS hosts. *)
Theorem apiUrlCondition_always_true :
(forall apiUrl : string,
    apiUrlCondition apiUrl = true
    /\ normalizeApiUrl apiUrl = (apiUrl ++ "/api")%string)
/\ normalizeApiUrl "https://api.bitwarden.com" = "https://api.bitwarden.com/api"
/\ normalizeApiUrl "https://api.bitwarden.eu" = "https://api.bitwarden.eu/api".
Proof.
assert (Hc : forall apiUrl : string, apiUrlCondition apiUrl = true).
{ intros apiUrl. unfold apiUrlCondition, str_ne.
  destruct (String.eqb_spec apiUrl "https://api.bitwarden.com") as [-> | _].
  - reflexivity.
  - reflexivity. }
split; [| split; reflexivity].
intros apiUrl. split; [apply Hc |].
unfold normalizeApiUrl. now rewrite Hc.
Qed.

(** C6. [Resources] lists the secret resource constructor twice and the
  project resource constructor not at all; [DataSources] lists the
  project and the secret data source once each and nothing else. *)
Theorem registered_constructors :
Resources = [NewSecretResource; NewSecretResource]
/\ occurrences eqb_ResourceCtor NewSecretResource Resources = 2
/\ occurrences eqb_ResourceCtor NewProjectResource Resources = 0
/\ ~ In NewProjectResource Resources
/\ List.length DataSources = 2
/\ occurrences eqb_DataSourceCtor NewProjectDataSource DataSources = 1
/\ occurrences eqb_DataSourceCtor NewSecretDataSource DataSources = 1.
Proof.
repeat split; try reflexivity.
intros [H | [H | []]]; discriminate H.
Qed.

(** C1 (the code as it runs on the example scenario).  With [api_url]
  and [identity_url] null and the access token "tok123", whatever the
  environment and the SDK, the client is constructed for
  "https://api.bitwarden.com/api" and for the identity URL
  "https://identity.bitwarden.com/connect/token/identity/connect/token"
  (the default already carries "/connect/token", and the normalisation
  appends its suffix to it), and the login is called with "tok123". *)
Theorem Configure_tok123_calls :
forall (Client : Type) (sdk : Sdk Client) (getenv : Environ),
  calls (Configure sdk getenv (request tok123)) =
    [CallNewBitwardenClient "https://api.bitwarden.com/api"
       "https://identity.bitwarden.com/connect/token/identity/connect/token";
     CallAccessTokenLogin
       (fst (NewBitwardenClient sdk "https://api.bitwarden.com/api"
               "https://identity.bitwarden.com/connect/token/identity/connect/token"))
       "tok123"]
  /\ clientIdentityUrl getenv tok123
     <> "https://identity.bitwarden.com/connect/token".
Proof.
intros Client sdk getenv. split.
- unfold request. rewrite Configure_past_gates by (reflexivity || discriminate).
  change (normalizeApiUrl (resolvedApiUrl getenv tok123))
    with "https://api.bitwarden.com/api".
  change (normalizeIdentityUrl (resolvedIdentityUrl getenv tok123))
    with "https://identity.bitwarden.com/connect/token/identity/connect/token".
  change (resolvedAccessToken getenv tok123) with "tok123".
  cbv zeta.
  destruct (NewBitwardenClient sdk _ _) as [[c |] err]; reflexivity.
- discriminate.
Qed.

(** C2 (the code as it resolves the settings).  A configured value is
  the one used, for each of the three settings.  With the attribute
  null, the access token is the value of BW_ACCESS_TOKEN, but the api
  URL and the identity URL are the hardcoded defaults whatever the
  environment holds: BW_API_URL and BW_IDENTITY_URL are read and then
  overwritten. *)
Theorem resolve_precedence :
forall (getenv : Environ) (a i t : types.String),
  (forall s, resolvedApiUrl getenv
               {| ApiUrl := types.StringValue s; IdentityUrl := i; AccessToken := t |} = s)
  /\ (forall s, resolvedIdentityUrl getenv
               {| ApiUrl := a; IdentityUrl := types.StringValue s; AccessToken := t |} = s)
  /\ (forall s, resolvedAccessToken getenv
               {| ApiUrl := a; IdentityUrl := i; AccessToken := types.StringValue s |} = s)
  /\ resolvedAccessToken getenv
       {| ApiUrl := a; IdentityUrl := i; AccessToken := types.StringNull |}
     = getenv "BW_ACCESS_TOKEN"
  /\ resolvedApiUrl getenv
       {| ApiUrl := types.StringNull; IdentityUrl := i; AccessToken := t |}
     = "https://api.bitwarden.com"
  /\ resolvedIdentityUrl getenv
       {| ApiUrl := a; IdentityUrl := types.StringNull; AccessToken := t |}
     = "https://identity.bitwarden.com/connect/token"
  /\ resolvedApiUrl fullEnv allNull <> fullEnv "BW_API_URL"
  /\ resolvedIdentityUrl fullEnv allNull <> fullEnv "BW_IDENTITY_URL".
Proof.
intros getenv a i t.
repeat split; try reflexivity; discriminate.
Qed.

(** C8. For a configuration that decodes without error and has no
  unknown attribute, in a run whose construction of the client and
  whose login succeed, [Configure] comes to its end with no error
  diagnostic if and only if the access token is not empty, the access
  token being the configured value or, when the attribute is null, the
  value of the environment variable BW_ACCESS_TOKEN. *)
Theorem Configure_succeeds_iff_token :
forall (Client : Type) (sdk : Sdk Client) (getenv : Environ)
       (config : bitwardenProviderModel) (diags : diag.Diagnostics)
       (c : Client),
  let accessToken :=
    match AccessToken config with
    | types.StringNull => getenv "BW_ACCESS_TOKEN"
    | configured => types.ValueString configured
    end in
  diag.HasError diags = false ->
  allKnown config = true ->
  NewBitwardenClient sdk (clientApiUrl getenv config)
    (clientIdentityUrl getenv config) = (Some c, None) ->
  AccessTokenLogin sdk c accessToken = None ->
  succeeded (Configure sdk getenv {| Config_Get := (config, diags) |}) = true
  <-> accessToken <> "".
Proof.
intros Client sdk getenv config diags c accessToken Hd Hk Hnew Hlogin.
assert (Htoken : resolvedAccessToken getenv config = accessToken).
{ subst accessToken. unfold resolvedAccessToken, resolve.
  destruct (AccessToken config); reflexivity. }
split.
- intros Hrun Ht. rewrite <- Htoken in Ht.
  rewrite (Configure_empty_token sdk getenv config diags Hd Hk Ht) in Hrun.
  discriminate Hrun.
- intros Ht. rewrite <- Htoken in Ht, Hlogin.
  rewrite Configure_past_gates by assumption. cbv zeta.
  unfold clientApiUrl, clientIdentityUrl in Hnew.
  rewrite Hnew, Hlogin. unfold succeeded. cbn [outcome Diagnostics].
  now rewrite Hd.
Qed.

(** C9, as the code has it.  When the construction of the client
  returns an error, [Configure] reports it and does not return: the
  login is called next, on whatever client came back.  If that client
  is not nil, it is stored in [DataSourceData] and in [ResourceData]
  although an error was reported.  If it is nil, the login call is a
  method call on a nil interface: the run panics there and nothing is
  stored. *)
Theorem Configure_construction_error :
forall (Client : Type) (sdk : Sdk Client) (getenv : Environ)
       (config : bitwardenProviderModel) (diags : diag.Diagnostics)
       (returnedClient : option Client) (e : string),
  diag.HasError diags = false ->
  allKnown config = true ->
  resolvedAccessToken getenv config <> "" ->
  NewBitwardenClient sdk (clientApiUrl getenv config)
    (clientIdentityUrl getenv config) = (returnedClient, Some e) ->
  let run := Configure sdk getenv {| Config_Get := (config, diags) |} in
  diag.HasError (Diagnostics (response (outcome run))) = true
  /\ calls run =
       [CallNewBitwardenClient (clientApiUrl getenv config)
          (clientIdentityUrl getenv config);
        CallAccessTokenLogin returnedClient (resolvedAccessToken getenv config)]
  /\ match returnedClient with
     | Some c =>
         exists r, outcome run = Returns r
           /\ DataSourceData r = Some c /\ ResourceData r = Some c
     | None =>
         exists r, outcome run = Panics r
           /\ DataSourceData r = None /\ ResourceData r = None
     end.
Proof.
intros Client sdk getenv config diags oc e Hd Hk Ht Hnew run.
subst run. rewrite Configure_past_gates by assumption. cbv zeta.
unfold clientApiUrl, clientIdentityUrl in Hnew. rewrite Hnew.
destruct oc as [c |]; cbn.
- split; [| split; [reflexivity | eexists; repeat split]].
  destruct (AccessTokenLogin sdk c _).
  + apply HasError_AddError.
  + apply HasError_AddError.
- split; [apply HasError_AddError | split; [reflexivity |]].
  eexists; repeat split.
Qed.

End ProviderClaims.

(** ** The loops *)

Section Loops.
Context {St I R M : Type}.

(** The accumulator of [collect] only prefixes what the loop gathers. *)
Lemma collect_acc (call : I -> St -> result R * St) (items : list I)
    (acc : list R) (s : St) :
  collect call items acc s =
    match collect call items [] s with
    | (Ok rs, s') => (Ok (acc ++ rs), s')
    | (Err e, s') => (Err e, s')
    end.
Proof.
  revert acc s. induction items as [| x rest IH]; intros acc s; cbn.
  - now rewrite app_nil_r.
  - destruct (call x s) as [[r | e] s1]; [| reflexivity].
    rewrite (IH (acc ++ [r])), (IH ([] ++ [r])).
    destruct (collect call rest [] s1) as [[rs | e] s2]; [| reflexivity].
    now rewrite <- app_assoc.
Qed.

(** A loop that ends without error has one response per item. *)
Lemma collect_length (call : I -> St -> result R * St) (items : list I)
    (s : St) (rs : list R) (s' : St) :
  collect call items [] s = (Ok rs, s') -> List.length rs = List.length items.
Proof.
  revert s rs s'. induction items as [| x rest IH]; intros s rs s'; cbn.
  - intros [= <- _]. reflexivity.
  - destruct (call x s) as [[r | e] s1]; [| discriminate].
    rewrite collect_acc.
    destruct (collect call rest [] s1) as [[rs1 | e] s2] eqn:E; [| discriminate].
    intros [= <- _]. cbn. f_equal. exact (IH _ _ _ E).
Qed.

(** Unfolding [collect] at the first item. *)
Lemma collect_cons (call : I -> St -> result R * St) (x : I) (rest : list I)
    (s : St) :
  collect call (x :: rest) [] s =
    match call x s with
    | (Err e, s1) => (Err e, s1)
    | (Ok r, s1) =>
        match collect call rest [] s1 with
        | (Ok rs, s2) => (Ok (r :: rs), s2)
        | (Err e, s2) => (Err e, s2)
        end
    end.
Proof.
  cbn. destruct (call x s) as [[r | e] s1]; [| reflexivity].
  apply collect_acc.
Qed.

(** A write-back whose elements can all be built overwrites the slots
    [i], [i+1], ... in order. *)
Lemma assignEach_total (f : R -> M) (rs : list R) :
  forall (i : nat) (data : list M),
    i + List.length rs <= List.length data ->
    assignEach (fun r => Some (f r)) rs i data =
      Some (take i data ++ List.map f rs ++ drop (i + List.length rs) data).
Proof.
  induction rs as [| r rest IH]; intros i data Hlen;
    cbn [assignEach List.length List.map app] in *.
  - rewrite Nat.add_0_r, take_drop. reflexivity.
  - assert (Hi : i < List.length data) by lia.
    apply Nat.ltb_lt in Hi as Hb. rewrite Hb.
    rewrite IH by (rewrite length_insert; lia).
    f_equal.
    rewrite (take_S_r _ i (f r)) by (now apply list_lookup_insert_eq).
    rewrite take_insert_ge by lia.
    rewrite drop_insert_lt by lia.
    rewrite <- app_assoc. cbn [app].
    now replace (S i + List.length rest) with (i + S (List.length rest)) by lia.
Qed.

(** Over the whole of [data] the write-back is a [map]. *)
Lemma assignEach_all (f : R -> M) (rs : list R) (data : list M) :
  List.length rs = List.length data ->
  assignEach (fun r => Some (f r)) rs 0 data = Some (List.map f rs).
Proof.
  intros Hlen. rewrite assignEach_total by (cbn; lia).
  cbn. rewrite Hlen, drop_all, app_nil_r. reflexivity.
Qed.

(** A write-back panics as soon as one element cannot be built. *)
Lemma assignEach_panics (conv : R -> option M) (rs : list R) :
  Exists (fun r => conv r = None) rs ->
  forall (i : nat) (data : list M), assignEach conv rs i data = None.
Proof.
  induction 1 as [r rest Hr | r rest _ IH]; intros i data;
    cbn [assignEach].
  - now rewrite Hr.
  - destruct (conv r); [| reflexivity].
    destruct (Nat.ltb i (List.length data)); [apply IH | reflexivity].
Qed.

End Loops.

(** ** Data sources *)

Section ProjectDataSourceFacts.
Import projectDataSource.
Context {St : Type} (client : bitwarden.BitwardenClientInterface St).

(** [readLoop] is [collect] with the elements appended to the list the
    loop ranges over. *)
Lemma project_readLoop_collect (pending acc : list projectModel) (s : St) :
  readLoop client pending acc s =
    match collect (getCall client) pending [] s with
    | (Ok rs, s') => LoopDone (acc ++ List.map fromResponse rs) s'
    | (Err _, s') => LoopError s'
    end.
Proof.
  revert acc s. induction pending as [| x rest IH]; intros acc s.
  - cbn. now rewrite app_nil_r.
  - rewrite collect_cons. cbn [readLoop].
    destruct (getCall client x s) as [[r | e] s1]; [| reflexivity].
    cbv zeta. rewrite IH.
    destruct (collect (getCall client) rest [] s1) as [[rs | e] s2];
      [| reflexivity].
    cbn [List.map]. now rewrite <- app_assoc.
Qed.
End ProjectDataSourceFacts.

Section SecretDataSourceFacts.
Import secretDataSource.
Context {St : Type} (client : bitwarden.BitwardenClientInterface St).

(** While the lookups succeed and every response names a project, the
    loop appends one element per item, in order. *)
Lemma secret_readLoop_prefix (pre rest acc : list secretModel) (s s1 : St)
    (rs : list bitwarden.SecretResponse) :
  collect (getCall client) pre [] s = (Ok rs, s1) ->
  Forall (fun r => bitwarden.ProjectID r <> None) rs ->
  exists ms,
    Forall2 (fun r m => fromResponse r = Some m) rs ms
    /\ readLoop client (pre ++ rest) acc s = readLoop client rest (acc ++ ms) s1.
Proof.
  revert acc s rs. induction pre as [| x pre IH]; intros acc s rs.
  - cbn. intros [= <- <-] _. exists []. split; [constructor |].
    now rewrite app_nil_r.
  - rewrite collect_cons. cbn [app readLoop].
    destruct (getCall client x s) as [[r | e] s2]; [| discriminate].
    destruct (collect (getCall client) pre [] s2) as [[rs1 | e] s3] eqn:E;
      [| discriminate].
    intros [= <- <-] Hall. apply Forall_cons in Hall as [Hr Hall].
    destruct (fromResponse r) as [m |] eqn:Em.
    + destruct (IH (acc ++ [m]) s2 rs1 E Hall) as (ms & Hms & Hloop).
      exists (m :: ms). split; [now constructor |].
      rewrite Hloop. now rewrite <- app_assoc.
    + unfold fromResponse in Em.
      destruct (bitwarden.ProjectID r); [discriminate | contradiction].
Qed.
End SecretDataSourceFacts.

Section DataSourceClaims.
Context {St : Type} (client : bitwarden.BitwardenClientInterface St).

(** C3 (the code as it reads).  When every lookup succeeds, the state a
  data-source [Read] writes holds the entries of the request followed
  by one fetched record per entry, in request order: twice as many
  records as ids, because the loop appends to the list it ranges over.
  When a lookup fails, the read ends with the one generic diagnostic
  and writes no state. *)
Theorem dataSource_Read_appends :
(forall (info : projectDataSource.projectDataSourceModel) (s : St),
    projectDataSource.Read client info s =
      match collect (projectDataSource.getCall client)
              (projectDataSource.Projects info) [] s with
      | (Ok rs, s') =>
          (Returns
             {| Diagnostics := [];
                State :=
                  Some {| projectDataSource.Projects :=
                            projectDataSource.Projects info
                            ++ List.map projectDataSource.fromResponse rs;
                          projectDataSource.ID := projectDataSource.ID info |} |},
           s')
      | (Err _, s') =>
          (Returns
             {| Diagnostics :=
                  [diag.mkDiagnostic diag.SeverityError None
                     "Unable to list projects under organization id"
                     "Validate that the organization id is not empty and is valid."];
                State := None |},
           s')
      end)
/\ (forall (info : projectDataSource.projectDataSourceModel) (s s' : St) rs,
      collect (projectDataSource.getCall client)
        (projectDataSource.Projects info) [] s = (Ok rs, s') ->
      List.length (projectDataSource.Projects info
                   ++ List.map projectDataSource.fromResponse rs)
      = 2 * List.length (projectDataSource.Projects info))
/\ (forall (info : secretDataSource.secretDataSourceModel) (s s' : St) rs,
      collect (secretDataSource.getCall client)
        (secretDataSource.Secrets info) [] s = (Ok rs, s') ->
      Forall (fun r => bitwarden.ProjectID r <> None) rs ->
      exists ms,
        Forall2 (fun r m => secretDataSource.fromResponse r = Some m) rs ms
        /\ List.length (secretDataSource.Secrets info ++ ms)
           = 2 * List.length (secretDataSource.Secrets info)
        /\ secretDataSource.Read client info s =
             (Returns
                {| Diagnostics := [];
                   State :=
                     Some {| secretDataSource.Secrets :=
                               secretDataSource.Secrets info ++ ms;
                             secretDataSource.ID := secretDataSource.ID info |} |},
              s'))
/\ (forall (pre post : list secretDataSource.secretModel) x id
           (s s1 s2 : St) rs e,
      collect (secretDataSource.getCall client) pre [] s = (Ok rs, s1) ->
      Forall (fun r => bitwarden.ProjectID r <> None) rs ->
      secretDataSource.getCall client x s1 = (Err e, s2) ->
      secretDataSource.Read client
        {| secretDataSource.Secrets := pre ++ x :: post;
           secretDataSource.ID := id |} s =
        (Returns
           {| Diagnostics :=
                [diag.mkDiagnostic diag.SeverityError None
                   "Unable to list secrets under organization id"
                   "Validate that the organization id is not empty and is valid."];
              State := None |},
         s2)).
Proof.
split; [| split; [| split]].
- intros info s. unfold projectDataSource.Read.
  rewrite project_readLoop_collect.
  destruct (collect _ _ [] s) as [[rs | e] s']; reflexivity.
- intros info s s' rs H. apply collect_length in H.
  rewrite length_app, length_map, H. lia.
- intros info s s' rs H Hall.
  destruct (secret_readLoop_prefix client (secretDataSource.Secrets info) []
              (secretDataSource.Secrets info) s s' rs H Hall)
    as (ms & Hms & Hloop).
  exists ms. split; [exact Hms | split].
  + apply collect_length in H. apply Forall2_length in Hms.
    rewrite length_app. lia.
  + unfold secretDataSource.Read. rewrite <- (app_nil_r (secretDataSource.Secrets info)) at 1.
    rewrite Hloop. reflexivity.
- intros pre post x id s s1 s2 rs e H Hall Hx.
  destruct (secret_readLoop_prefix client pre (x :: post) (pre ++ x :: post)
              s s1 rs H Hall) as (ms & Hms & Hloop).
  unfold secretDataSource.Read. cbn [secretDataSource.Secrets].
  rewrite Hloop. cbn [secretDataSource.readLoop]. rewrite Hx. reflexivity.
Qed.

(** C10.  Secret [Update]
  writes back [*projectItem.ProjectID] for every response once all the
  update calls have succeeded, and the secret data-source [Read] does
  so for each response as it arrives; a response whose [ProjectID] is
  nil makes either panic, with no diagnostic and no state written. *)
Theorem nil_ProjectID_panics :
(forall (data : SecretResource.SecretResourceModel) (diags : diag.Diagnostics)
        (s s' : St) rs,
    diag.HasError diags = false ->
    collect (SecretResource.updateCall client)
      (SecretResource.Secrets data) [] s = (Ok rs, s') ->
    Exists (fun r => bitwarden.ProjectID r = None) rs ->
    SecretResource.Update client (data, diags) s =
      (Panics {| Diagnostics := diags; State := None |}, s'))
/\ (forall (pre post : list secretDataSource.secretModel) x id
           (s s1 s2 : St) rs r,
      collect (secretDataSource.getCall client) pre [] s = (Ok rs, s1) ->
      Forall (fun r => bitwarden.ProjectID r <> None) rs ->
      secretDataSource.getCall client x s1 = (Ok r, s2) ->
      bitwarden.ProjectID r = None ->
      secretDataSource.Read client
        {| secretDataSource.Secrets := pre ++ x :: post;
           secretDataSource.ID := id |} s =
        (Panics {| Diagnostics := []; State := None |}, s2)).
Proof.
split.
- intros data diags s s' rs Hd H Hnil.
  unfold SecretResource.Update. rewrite Append_nil_l, Hd, H.
  rewrite assignEach_panics; [reflexivity |].
  eapply Exists_impl; [exact Hnil |].
  intros r Hr. unfold SecretResource.fromUpdateResponse. now rewrite Hr.
- intros pre post x id s s1 s2 rs r H Hall Hx Hr.
  destruct (secret_readLoop_prefix client pre (x :: post) (pre ++ x :: post)
              s s1 rs H Hall) as (ms & Hms & Hloop).
  unfold secretDataSource.Read. cbn [secretDataSource.Secrets].
  rewrite Hloop. cbn [secretDataSource.readLoop]. rewrite Hx.
  unfold secretDataSource.fromResponse. rewrite Hr. reflexivity.
Qed.

End DataSourceClaims.

(** ** Clients that store what they are given *)

Section RoundTrip.
Context {St A R I : Type}
  (create : A -> St -> result R * St) (get : string -> St -> result R * St)
  (key : R -> string) (given : A -> R -> Prop)
  (Inv : St -> Prop) (holds : St -> R -> Prop)
  (F : Faithful create get key given Inv holds)
  (args : I -> A).

(** A Create loop that succeeds leaves every created record stored, each
    carrying the arguments of its item. *)
Lemma collect_create_faithful (items : list I) :
  forall (s : St) (rs : list R) (s1 : St),
    Inv s ->
    collect (fun it => create (args it)) items [] s = (Ok rs, s1) ->
    Inv s1
    /\ Forall2 (fun it r => given (args it) r) items rs
    /\ Forall (holds s1) rs
    /\ (forall r0, holds s r0 -> holds s1 r0).
Proof.
  induction items as [| x rest IH]; intros s rs s1 Hinv.
  - cbn. intros [= <- <-]. repeat split; auto.
  - rewrite collect_cons.
    destruct (create (args x) s) as [[r | e] s2] eqn:Ex; [| discriminate].
    destruct (collect _ rest [] s2) as [[rs' | e] s3] eqn:Erest; [| discriminate].
    intros [= <- <-].
    pose proof (create_inv _ _ _ _ _ _ F _ _ _ _ Hinv Ex) as Hinv2.
    destruct (create_stores _ _ _ _ _ _ F _ _ _ _ Hinv Ex) as [Hgiven Hheld].
    destruct (IH s2 rs' s3 Hinv2 Erest) as (Hinv3 & Hall2 & Hall & Hkeep).
    repeat split.
    + exact Hinv3.
    + now constructor.
    + constructor; [now apply Hkeep | exact Hall].
    + intros r0 H0. apply Hkeep.
      exact (create_keeps _ _ _ _ _ _ F _ _ _ _ _ Hinv H0 Ex).
Qed.

(** Records that are stored come back from a Get loop, in order. *)
Lemma collect_get_faithful (rs : list R) :
  forall s : St,
    Inv s -> Forall (holds s) rs ->
    exists s2, collect (fun r => get (key r)) rs [] s = (Ok rs, s2).
Proof.
  induction rs as [| r rest IH]; intros s Hinv Hall.
  - exists s. reflexivity.
  - apply Forall_cons in Hall as [Hr Hrest].
    destruct (get_returns _ _ _ _ _ _ F s r Hinv Hr) as [s' Hget].
    pose proof (get_inv _ _ _ _ _ _ F _ _ _ _ Hinv Hget) as Hinv'.
    assert (Hrest' : Forall (holds s') rest).
    { eapply Forall_impl; [exact Hrest |].
      intros r0 H0. exact (get_keeps _ _ _ _ _ _ F _ _ _ _ _ Hinv H0 Hget). }
    destruct (IH s' Hinv' Hrest') as [s2 Hloop].
    exists s2. rewrite collect_cons, Hget, Hloop. reflexivity.
Qed.

End RoundTrip.

Lemma collect_map {St I J R : Type} (call : J -> St -> result R * St)
    (g : I -> J) (items : list I) :
  forall (acc : list R) (s : St),
    collect call (List.map g items) acc s
    = collect (fun x => call (g x)) items acc s.
Proof.
  induction items as [| x rest IH]; intros acc s; cbn; [reflexivity |].
  destruct (call (g x) s) as [[r | e] s']; [apply IH | reflexivity].
Qed.

Section FaithfulClient.
Context {St : Type} (client : bitwarden.BitwardenClientInterface St)
  (Inv : St -> Prop).

(** Against a client that stores the secrets it is given, [Create]
    followed by [Read] of what [Create] wrote leaves the state [Create]
    wrote: key, value, note and organization as planned, the project id
    null. *)
Lemma secret_Create_then_Read
    (holds : St -> bitwarden.SecretResponse -> Prop)
    (F : FaithfulSecrets client Inv holds)
    (data : SecretResource.SecretResourceModel) (resourceId : string)
    (diags : diag.Diagnostics) (s s1 : St) (rs : list bitwarden.SecretResponse) :
  diag.HasError diags = false ->
  Inv s ->
  collect (SecretResource.createCall client) (SecretResource.Secrets data) [] s
    = (Ok rs, s1) ->
  exists created s2,
    SecretResource.Create client (resourceId, None) (data, diags) s
      = (Returns {| Diagnostics := diags; State := Some created |}, s1)
    /\ SecretResource.Read client (created, []) s1
       = (Returns {| Diagnostics := []; State := Some created |}, s2)
    /\ SecretResource.Id created = types.StringValue resourceId
    /\ Forall2 secretReadBack (SecretResource.Secrets data)
         (SecretResource.Secrets created).
Proof.
  intros Hd Hinv Hcreate.
  pose proof (collect_length _ _ _ _ _ Hcreate) as Hlen.
  destruct (collect_create_faithful _ _ _ _ _ _ F
              (fun secret : SecretResource.secretItemModel =>
                 (types.ValueString (SecretResource.Key secret),
                  types.ValueString (SecretResource.Value secret),
                  types.ValueString (SecretResource.Note secret),
                  types.ValueString (SecretResource.OrganizationId secret),
                  [types.ValueString (SecretResource.ProjectId secret)]))
              (SecretResource.Secrets data) s rs s1 Hinv Hcreate)
    as (Hinv1 & Hgiven & Hheld & _).
  destruct (collect_get_faithful _ _ _ _ _ _ F rs s1 Hinv1 Hheld) as [s2 Hget].
  exists {| SecretResource.Secrets := List.map SecretResource.fromResponse rs;
            SecretResource.Id := types.StringValue resourceId |}, s2.
  repeat split.
  - unfold SecretResource.Create. rewrite Append_nil_l, Hd.
    cbn [SecretResource.Secrets SecretResource.Id]. rewrite Hcreate.
    rewrite assignEach_all by exact Hlen. now rewrite Append_nil_r.
  - unfold SecretResource.Read. rewrite Append_nil_l.
    cbn [diag.HasError existsb SecretResource.Secrets SecretResource.Id].
    rewrite collect_map.
    change (collect _ rs [] s1)
      with (collect (fun r => bitwarden.Secrets_Get client (bitwarden.ID r)) rs [] s1).
    rewrite Hget. rewrite assignEach_all by (now rewrite length_map).
    reflexivity.
  - cbn [SecretResource.Secrets]. clear -Hgiven.
    induction Hgiven as [| it r items rs' (Hk & Hv & Hn & Ho & _) _ IH].
    + constructor.
    + constructor; [| exact IH].
      unfold secretReadBack, SecretResource.fromResponse. cbn.
      now rewrite Hk, Hv, Hn, Ho.
Qed.

(** The same for projects: name and organization come back as planned. *)
Lemma project_Create_then_Read
    (holds : St -> bitwarden.ProjectResponse -> Prop)
    (F : FaithfulProjects client Inv holds)
    (data : ProjectResource.ProjectResourceModel) (resourceId : string)
    (diags : diag.Diagnostics) (s s1 : St) (rs : list bitwarden.ProjectResponse) :
  diag.HasError diags = false ->
  Inv s ->
  collect (ProjectResource.createCall client) (ProjectResource.Projects data) [] s
    = (Ok rs, s1) ->
  exists created s2,
    ProjectResource.Create client (resourceId, None) (data, diags) s
      = (Returns {| Diagnostics := diags; State := Some created |}, s1)
    /\ ProjectResource.Read client (created, []) s1
       = (Returns {| Diagnostics := []; State := Some created |}, s2)
    /\ ProjectResource.Id created = types.StringValue resourceId
    /\ Forall2 projectReadBack (ProjectResource.Projects data)
         (ProjectResource.Projects created).
Proof.
  intros Hd Hinv Hcreate.
  pose proof (collect_length _ _ _ _ _ Hcreate) as Hlen.
  destruct (collect_create_faithful _ _ _ _ _ _ F
              (fun project : ProjectResource.projectItemModel =>
                 (types.ValueString (ProjectResource.Name project),
                  types.ValueString (ProjectResource.OrganizationId project)))
              (ProjectResource.Projects data) s rs s1 Hinv Hcreate)
    as (Hinv1 & Hgiven & Hheld & _).
  destruct (collect_get_faithful _ _ _ _ _ _ F rs s1 Hinv1 Hheld) as [s2 Hget].
  exists {| ProjectResource.Projects := List.map ProjectResource.fromResponse rs;
            ProjectResource.Id := types.StringValue resourceId |}, s2.
  repeat split.
  - unfold ProjectResource.Create. rewrite Append_nil_l, Hd.
    cbn [ProjectResource.Projects ProjectResource.Id]. rewrite Hcreate.
    rewrite assignEach_all by exact Hlen. now rewrite Append_nil_r.
  - unfold ProjectResource.Read. rewrite Append_nil_l.
    cbn [diag.HasError existsb ProjectResource.Projects ProjectResource.Id].
    rewrite collect_map.
    change (collect _ rs [] s1)
      with (collect (fun r => bitwarden.Projects_Get client (bitwarden.pID r)) rs [] s1).
    rewrite Hget. rewrite assignEach_all by (now rewrite length_map).
    reflexivity.
  - cbn [ProjectResource.Projects]. clear -Hgiven.
    induction Hgiven as [| it r items rs' (Hn & Ho) _ IH].
    + constructor.
    + constructor; [| exact IH].
      unfold projectReadBack, ProjectResource.fromResponse. cbn.
      now rewrite Hn, Ho.
Qed.

End FaithfulClient.

(** ** Resources *)

(** A loop whose every call succeeds with [v] and adds one entry to a
    record makes one call per item, in order. *)
Lemma collect_recording {I R E : Type} (v : R) (entry : I -> E)
    (items : list I) :
  forall (acc : list R) (log : list E),
    collect (fun x log => (Ok v, log ++ [entry x])) items acc log
    = (Ok (acc ++ List.map (fun _ => v) items), log ++ List.map entry items).
Proof.
  induction items as [| x rest IH]; intros acc log; cbn.
  - now rewrite !app_nil_r.
  - rewrite IH. now rewrite <- !app_assoc.
Qed.

(** C7. When the identifier cannot be generated, both [Create]
    callbacks add the diagnostic and go on: the identifier that came
    back with the error (blank, for go-uuid) becomes the tracking id, the
    client's Create is still called for every item of the plan, with the
    item's values, and, if those calls succeed, the state is written.
    The first two parts say so for every client, the last two show the
    calls on the record of a client that records them. *)
Theorem Create_goes_on_after_uuid_error :
  forall (resourceId e : string) (diags : diag.Diagnostics),
    diag.HasError diags = false ->
    (forall (St : Type) (client : bitwarden.BitwardenClientInterface St)
            (data : ProjectResource.ProjectResourceModel) (s : St),
        ProjectResource.Create client (resourceId, Some e) (data, diags) s =
          match collect
                  (fun project =>
                     bitwarden.Projects_Create client
                       (types.ValueString (ProjectResource.Name project))
                       (types.ValueString (ProjectResource.OrganizationId project)))
                  (ProjectResource.Projects data) [] s with
          | (Ok rs, s') =>
              (Returns
                 {| Diagnostics := diags ++ [idGenerationError];
                    State :=
                      Some {| ProjectResource.Projects :=
                                List.map ProjectResource.fromResponse rs;
                              ProjectResource.Id := types.StringValue resourceId |} |},
               s')
          | (Err msg, s') =>
              (Returns
                 {| Diagnostics :=
                      diag.AddError "Error creating project"
                        ("Could not create project, unexpected error: " ++ msg)
                        (diags ++ [idGenerationError]);
                    State := None |},
               s')
          end)
    /\ (forall (St : Type) (client : bitwarden.BitwardenClientInterface St)
               (data : SecretResource.SecretResourceModel) (s : St),
        SecretResource.Create client (resourceId, Some e) (data, diags) s =
          match collect
                  (fun secret =>
                     bitwarden.Secrets_Create client
                       (types.ValueString (SecretResource.Key secret))
                       (types.ValueString (SecretResource.Value secret))
                       (types.ValueString (SecretResource.Note secret))
                       (types.ValueString (SecretResource.OrganizationId secret))
                       [types.ValueString (SecretResource.ProjectId secret)])
                  (SecretResource.Secrets data) [] s with
          | (Ok rs, s') =>
              (Returns
                 {| Diagnostics := diags ++ [idGenerationError];
                    State :=
                      Some {| SecretResource.Secrets :=
                                List.map SecretResource.fromResponse rs;
                              SecretResource.Id := types.StringValue resourceId |} |},
               s')
          | (Err msg, s') =>
              (Returns
                 {| Diagnostics :=
                      diag.AddError "Error creating secret"
                        ("Could not create secret, unexpected error: " ++ msg)
                        (diags ++ [idGenerationError]);
                    State := None |},
               s')
          end)
    /\ (forall (p : bitwarden.ProjectResponse) (r : bitwarden.SecretResponse)
               (data : ProjectResource.ProjectResourceModel)
               (log : list ClientCall),
        ProjectResource.Create (recorder p r) (resourceId, Some e) (data, diags) log
        = (Returns
             {| Diagnostics := diags ++ [idGenerationError];
                State :=
                  Some {| ProjectResource.Projects :=
                            List.map (fun _ => ProjectResource.fromResponse p)
                              (ProjectResource.Projects data);
                          ProjectResource.Id := types.StringValue resourceId |} |},
           log ++ List.map projectCreateCallOf (ProjectResource.Projects data)))
    /\ (forall (p : bitwarden.ProjectResponse) (r : bitwarden.SecretResponse)
               (data : SecretResource.SecretResourceModel)
               (log : list ClientCall),
        SecretResource.Create (recorder p r) (resourceId, Some e) (data, diags) log
        = (Returns
             {| Diagnostics := diags ++ [idGenerationError];
                State :=
                  Some {| SecretResource.Secrets :=
                            List.map (fun _ => SecretResource.fromResponse r)
                              (SecretResource.Secrets data);
                          SecretResource.Id := types.StringValue resourceId |} |},
           log ++ List.map secretCreateCallOf (SecretResource.Secrets data))).
Proof.
  intros resourceId e diags Hd.
  assert (Hproject :
    forall (St : Type) (client : bitwarden.BitwardenClientInterface St)
           (data : ProjectResource.ProjectResourceModel) (s : St),
      ProjectResource.Create client (resourceId, Some e) (data, diags) s =
        match collect
                (fun project =>
                   bitwarden.Projects_Create client
                     (types.ValueString (ProjectResource.Name project))
                     (types.ValueString (ProjectResource.OrganizationId project)))
                (ProjectResource.Projects data) [] s with
        | (Ok rs, s') =>
            (Returns
               {| Diagnostics := diags ++ [idGenerationError];
                  State :=
                    Some {| ProjectResource.Projects :=
                              List.map ProjectResource.fromResponse rs;
                            ProjectResource.Id := types.StringValue resourceId |} |},
             s')
        | (Err msg, s') =>
            (Returns
               {| Diagnostics :=
                    diag.AddError "Error creating project"
                      ("Could not create project, unexpected error: " ++ msg)
                      (diags ++ [idGenerationError]);
                  State := None |},
             s')
        end).
  { intros St client data s. unfold ProjectResource.Create.
    rewrite Append_nil_l, Hd. cbn [ProjectResource.Projects ProjectResource.Id].
    unfold ProjectResource.createCall.
    destruct (collect _ _ [] s) as [[rs | msg] s'] eqn:E; [| reflexivity].
    rewrite assignEach_all by (now apply collect_length in E).
    now rewrite Append_nil_r. }
  assert (Hsecret :
    forall (St : Type) (client : bitwarden.BitwardenClientInterface St)
           (data : SecretResource.SecretResourceModel) (s : St),
      SecretResource.Create client (resourceId, Some e) (data, diags) s =
        match collect
                (fun secret =>
                   bitwarden.Secrets_Create client
                     (types.ValueString (SecretResource.Key secret))
                     (types.ValueString (SecretResource.Value secret))
                     (types.ValueString (SecretResource.Note secret))
                     (types.ValueString (SecretResource.OrganizationId secret))
                     [types.ValueString (SecretResource.ProjectId secret)])
                (SecretResource.Secrets data) [] s with
        | (Ok rs, s') =>
            (Returns
               {| Diagnostics := diags ++ [idGenerationError];
                  State :=
                    Some {| SecretResource.Secrets :=
                              List.map SecretResource.fromResponse rs;
                            SecretResource.Id := types.StringValue resourceId |} |},
             s')
        | (Err msg, s') =>
            (Returns
               {| Diagnostics :=
                    diag.AddError "Error creating secret"
                      ("Could not create secret, unexpected error: " ++ msg)
                      (diags ++ [idGenerationError]);
                  State := None |},
             s')
        end).
  { intros St client data s. unfold SecretResource.Create.
    rewrite Append_nil_l, Hd. cbn [SecretResource.Secrets SecretResource.Id].
    unfold SecretResource.createCall.
    destruct (collect _ _ [] s) as [[rs | msg] s'] eqn:E; [| reflexivity].
    rewrite assignEach_all by (now apply collect_length in E).
    now rewrite Append_nil_r. }
  split; [exact Hproject | split; [exact Hsecret | split]].
  - intros p r data log. rewrite Hproject.
    cbn [bitwarden.Projects_Create recorder].
    rewrite (collect_recording p projectCreateCallOf). cbn [app].
    now rewrite map_map.
  - intros p r data log. rewrite Hsecret.
    cbn [bitwarden.Secrets_Create recorder].
    rewrite (collect_recording r secretCreateCallOf). cbn [app].
    now rewrite map_map.
Qed.

(** ** The in-memory client stores what it is given *)

Lemma tally_length (n : nat) : String.length (memory.tally n) = n.
Proof. induction n as [| n IH]; cbn; [reflexivity | now rewrite IH]. Qed.

Lemma tally_inj (a b : nat) : memory.tally a = memory.tally b -> a = b.
Proof.
  intros H. apply (f_equal String.length) in H.
  now rewrite !tally_length in H.
Qed.

Lemma secretId_inj (a b : nat) : memory.secretId a = memory.secretId b -> a = b.
Proof. unfold memory.secretId. cbn. intros [= H]. now apply tally_inj. Qed.

Lemma projectId_inj (a b : nat) : memory.projectId a = memory.projectId b -> a = b.
Proof. unfold memory.projectId. cbn. intros [= H]. now apply tally_inj. Qed.

(** In a list whose keys follow the positions, looking a member up by
    its key finds that member. *)
Lemma find_by_position {R : Type} (key : R -> string) (mk : nat -> string)
    (Hinj : forall a b, mk a = mk b -> a = b) (r : R) (l : list R) :
  forall off : nat,
    (forall k x, l !! k = Some x -> key x = mk (off + k)) ->
    In r l ->
    List.find (fun x => str_eq (key x) (key r)) l = Some r.
Proof.
  induction l as [| x rest IH]; intros off Hpos Hin; [destruct Hin |].
  cbn [List.find].
  destruct (str_eq (key x) (key r)) eqn:E.
  - apply str_eq_true in E. destruct Hin as [-> | Hin]; [reflexivity |].
    apply list_elem_of_In, list_elem_of_lookup in Hin as [j Hj].
    pose proof (Hpos 0 x eq_refl) as Hx.
    pose proof (Hpos (S j) r Hj) as Hr.
    rewrite E, Hr in Hx. apply Hinj in Hx. lia.
  - apply str_eq_false in E. destruct Hin as [-> | Hin]; [congruence |].
    apply (IH (S off)); [| exact Hin].
    intros k y Hk. specialize (Hpos (S k) y Hk).
    now replace (S off + k) with (off + S k) by lia.
Qed.

Lemma positions_snoc {R : Type} (key : R -> string) (mk : nat -> string)
    (l : list R) (r : R) :
  (forall k x, l !! k = Some x -> key x = mk k) ->
  key r = mk (List.length l) ->
  forall k x, (l ++ [r]) !! k = Some x -> key x = mk k.
Proof.
  intros Hpos Hr k x Hk.
  apply lookup_app_Some in Hk as [Hk | [Hge Hk]]; [now apply Hpos |].
  apply list_lookup_singleton_Some in Hk as [Hk0 <-].
  now replace k with (List.length l) by lia.
Qed.

Lemma memory_FaithfulSecrets :
  FaithfulSecrets memory.client memory.wellFormed memory.holdsSecret.
Proof.
  split.
  - intros [[[[key value] note] org] ps] st res st' [Hs Hp]. cbn.
    intros [= _ <-]. split; cbn; [| exact Hp].
    now apply positions_snoc.
  - intros id st res st' Hwf. cbn. unfold memory.Secrets_Get.
    destruct (memory.findSecret id st); now intros [= _ <-].
  - intros [[[[key value] note] org] ps] st r st' _. cbn.
    intros [= <- <-]. split; [now repeat split |].
    unfold memory.holdsSecret. cbn. apply in_or_app. right. now left.
  - intros [[[[key value] note] org] ps] st res st' r0 _ H0. cbn.
    intros [= _ <-]. unfold memory.holdsSecret in *. cbn.
    apply in_or_app. now left.
  - intros st r [Hs _] Hr. exists st. cbn. unfold memory.Secrets_Get, memory.findSecret.
    now rewrite (find_by_position bitwarden.ID memory.secretId secretId_inj r
                   (memory.secrets st) 0 Hs Hr).
  - intros id st res st' r0 _ H0. cbn. unfold memory.Secrets_Get.
    destruct (memory.findSecret id st); now intros [= _ <-].
Qed.

Lemma memory_FaithfulProjects :
  FaithfulProjects memory.client memory.wellFormed memory.holdsProject.
Proof.
  split.
  - intros [name org] st res st' [Hs Hp]. cbn.
    intros [= _ <-]. split; cbn; [exact Hs |].
    now apply positions_snoc.
  - intros id st res st' Hwf. cbn. unfold memory.Projects_Get.
    destruct (memory.findProject id st); now intros [= _ <-].
  - intros [name org] st r st' _. cbn.
    intros [= <- <-]. split; [now split |].
    unfold memory.holdsProject. cbn. apply in_or_app. right. now left.
  - intros [name org] st res st' r0 _ H0. cbn.
    intros [= _ <-]. unfold memory.holdsProject in *. cbn.
    apply in_or_app. now left.
  - intros st r [_ Hp] Hr. exists st. cbn. unfold memory.Projects_Get, memory.findProject.
    now rewrite (find_by_position bitwarden.pID memory.projectId projectId_inj r
                   (memory.projects st) 0 Hp Hr).
  - intros id st res st' r0 _ H0. cbn. unfold memory.Projects_Get.
    destruct (memory.findProject id st); now intros [= _ <-].
Qed.

Lemma memory_empty_wellFormed : memory.wellFormed memory.empty.
Proof. split; intros k x; cbn; now rewrite lookup_nil. Qed.

(** The in-memory client refuses no Create. *)
Lemma memory_creates_succeed :
  (forall (items : list SecretResource.secretItemModel) (st : memory.Store),
      exists rs st',
        collect (SecretResource.createCall memory.client) items [] st = (Ok rs, st'))
  /\ (forall (items : list ProjectResource.projectItemModel) (st : memory.Store),
      exists rs st',
        collect (ProjectResource.createCall memory.client) items [] st = (Ok rs, st')).
Proof.
  split.
  - induction items as [| x rest IH]; intros st; [now exists [], st |].
    rewrite collect_cons. cbn.
    destruct (IH {| memory.projects := memory.projects st;
                    memory.secrets := memory.secrets st ++
                      [bitwarden.mkSecretResponse
                         (memory.secretId (List.length (memory.secrets st)))
                         (types.ValueString (SecretResource.Key x))
                         (types.ValueString (SecretResource.Value x))
                         (types.ValueString (SecretResource.Note x))
                         (types.ValueString (SecretResource.OrganizationId x))
                         (Some (types.ValueString (SecretResource.ProjectId x)))] |})
      as (rs & st' & H).
    cbn in H. rewrite H. now eexists _, _.
  - induction items as [| x rest IH]; intros st; [now exists [], st |].
    rewrite collect_cons. cbn.
    destruct (IH {| memory.projects := memory.projects st ++
                      [bitwarden.mkProjectResponse
                         (memory.projectId (List.length (memory.projects st)))
                         (types.ValueString (ProjectResource.Name x))
                         (types.ValueString (ProjectResource.OrganizationId x))
                         "" ""];
                    memory.secrets := memory.secrets st |})
      as (rs & st' & H).
    cbn in H. rewrite H. now eexists _, _.
Qed.

(** C4 (the code as it runs against a client that stores what it is
    given).  Whatever the secrets of the plan, [Create] followed by
    [Read] against the in-memory client leaves a state whose elements
    have the planned key, value, note and organization, but a null
    project id: neither write-back sets [ProjectId].  For one secret
    planned for project [projectId] the client holds the association and
    the state does not.  The projects of a plan come back with their
    name and organization. *)
Theorem Create_then_Read_memory :
  (forall (data : SecretResource.SecretResourceModel) (resourceId : string),
      exists created st st',
        SecretResource.Create memory.client (resourceId, None) (data, [])
          memory.empty
        = (Returns {| Diagnostics := []; State := Some created |}, st)
        /\ SecretResource.Read memory.client (created, []) st
           = (Returns {| Diagnostics := []; State := Some created |}, st')
        /\ Forall2 secretReadBack (SecretResource.Secrets data)
             (SecretResource.Secrets created))
  /\ (forall (data : ProjectResource.ProjectResourceModel) (resourceId : string),
      exists created st st',
        ProjectResource.Create memory.client (resourceId, None) (data, [])
          memory.empty
        = (Returns {| Diagnostics := []; State := Some created |}, st)
        /\ ProjectResource.Read memory.client (created, []) st
           = (Returns {| Diagnostics := []; State := Some created |}, st')
        /\ Forall2 projectReadBack (ProjectResource.Projects data)
             (ProjectResource.Projects created))
  /\ (forall (key value note organizationId projectId resourceId : string),
      exists created st,
        SecretResource.Create memory.client (resourceId, None)
          (oneSecret key value note organizationId projectId, []) memory.empty
        = (Returns {| Diagnostics := []; State := Some created |}, st)
        /\ memory.secrets st =
             [bitwarden.mkSecretResponse "s" key value note organizationId
                (Some projectId)]
        /\ SecretResource.Read memory.client (created, []) st
           = (Returns
                {| Diagnostics := [];
                   State :=
                     Some {| SecretResource.Secrets :=
                               [{| SecretResource.Key := types.StringValue key;
                                   SecretResource.Value := types.StringValue value;
                                   SecretResource.Note := types.StringValue note;
                                   SecretResource.SecretId := types.StringValue "s";
                                   SecretResource.ProjectId := types.StringNull;
                                   SecretResource.OrganizationId :=
                                     types.StringValue organizationId |}];
                             SecretResource.Id := types.StringValue resourceId |} |},
              st)).
Proof.
  destruct memory_creates_succeed as [Hsecrets Hprojects].
  split; [| split].
  - intros data resourceId.
    destruct (Hsecrets (SecretResource.Secrets data) memory.empty) as (rs & st & Hc).
    destruct (secret_Create_then_Read memory.client memory.wellFormed
                memory.holdsSecret memory_FaithfulSecrets data resourceId []
                memory.empty st rs eq_refl memory_empty_wellFormed Hc)
      as (created & st' & Hcreate & Hread & _ & Hback).
    now exists created, st, st'.
  - intros data resourceId.
    destruct (Hprojects (ProjectResource.Projects data) memory.empty) as (rs & st & Hc).
    destruct (project_Create_then_Read memory.client memory.wellFormed
                memory.holdsProject memory_FaithfulProjects data resourceId []
                memory.empty st rs eq_refl memory_empty_wellFormed Hc)
      as (created & st' & Hcreate & Hread & _ & Hback).
    now exists created, st, st'.
  - intros key value note organizationId projectId resourceId.
    eexists _, _. split; [reflexivity | split; reflexivity].
Qed.

(** ** The statements at concrete inputs *)

(** C8 with an SDK that does not fail: a token that comes from
    BW_ACCESS_TOKEN alone and a token that comes from the configuration
    alone both let the run succeed; with neither, the run fails. *)
Lemma Configure_succeeds_iff_token_witness :
  BitwardenSecretsProvider.succeeded
    (BitwardenSecretsProvider.Configure alwaysUp fullEnv (request allNull)) = true
  /\ BitwardenSecretsProvider.succeeded
       (BitwardenSecretsProvider.Configure alwaysUp noEnv (request tok123)) = true
  /\ BitwardenSecretsProvider.succeeded
       (BitwardenSecretsProvider.Configure alwaysUp noEnv (request allNull)) = false.
Proof.
  split; [| split].
  - apply (Configure_succeeds_iff_token _ alwaysUp fullEnv allNull []
             (BitwardenSecretsProvider.clientApiUrl fullEnv allNull,
              BitwardenSecretsProvider.clientIdentityUrl fullEnv allNull)
             eq_refl eq_refl eq_refl eq_refl).
    discriminate.
  - apply (Configure_succeeds_iff_token _ alwaysUp noEnv tok123 []
             (BitwardenSecretsProvider.clientApiUrl noEnv tok123,
              BitwardenSecretsProvider.clientIdentityUrl noEnv tok123)
             eq_refl eq_refl eq_refl eq_refl).
    discriminate.
  - destruct (BitwardenSecretsProvider.succeeded
                (BitwardenSecretsProvider.Configure alwaysUp noEnv (request allNull)))
      eqn:E; [| reflexivity].
    exfalso.
    apply (proj1 (Configure_succeeds_iff_token _ alwaysUp noEnv allNull []
                    (BitwardenSecretsProvider.clientApiUrl noEnv allNull,
                     BitwardenSecretsProvider.clientIdentityUrl noEnv allNull)
                    eq_refl eq_refl eq_refl eq_refl) E).
    reflexivity.
Defined.

(** C9 when the failed construction still hands back a client. *)
Lemma Configure_construction_error_witness :
  BitwardenSecretsProvider.resolvedAccessToken noEnv tok123 <> ""
  /\ BitwardenSecretsProvider.NewBitwardenClient (downWith (Some ("a", "b")))
       (BitwardenSecretsProvider.clientApiUrl noEnv tok123)
       (BitwardenSecretsProvider.clientIdentityUrl noEnv tok123)
     = (Some ("a", "b"), Some "library initialisation failed")
  /\ exists r,
       BitwardenSecretsProvider.outcome
         (BitwardenSecretsProvider.Configure (downWith (Some ("a", "b"))) noEnv
            {| BitwardenSecretsProvider.Config_Get := (tok123, []) |})
       = Returns r
       /\ BitwardenSecretsProvider.DataSourceData r = Some ("a", "b")
       /\ BitwardenSecretsProvider.ResourceData r = Some ("a", "b").
Proof.
  assert (Htok : BitwardenSecretsProvider.resolvedAccessToken noEnv tok123 <> "")
    by discriminate.
  split; [exact Htok | split; [reflexivity |]].
  exact (proj2 (proj2
           (Configure_construction_error _ (downWith (Some ("a", "b"))) noEnv
              tok123 [] (Some ("a", "b")) "library initialisation failed"
              eq_refl eq_refl Htok eq_refl))).
Defined.

(** C9 as stated fails when the client that comes back with the error is
    nil: the run does not reach the two assignments. *)
Lemma Configure_nil_client_does_not_carry_on :
  ~ BitwardenSecretsProvider.carriesOn None "tok123"
      (BitwardenSecretsProvider.Configure (downWith None) noEnv (request tok123)).
Proof.
  intros (_ & _ & r & Hr & _). discriminate Hr.
Qed.

(** C7 for one project and for one secret against the recording
    client: the diagnostic is there, the tracking id is blank, and the
    record shows the Create call of the item. *)
Lemma Create_goes_on_after_uuid_error_witness :
  diag.HasError [] = false
  /\ ProjectResource.Create (recorder storedProject storedSecret)
       ("", Some "entropy source failed")
       (oneProject "infra" "org-1", []) []
     = (Returns
          {| Diagnostics := [idGenerationError];
             State :=
               Some {| ProjectResource.Projects :=
                         [ProjectResource.fromResponse storedProject];
                       ProjectResource.Id := types.StringValue "" |} |},
        [CallProjectsCreate "infra" "org-1"])
  /\ SecretResource.Create (recorder storedProject storedSecret)
       ("", Some "entropy source failed")
       (oneSecret "db_password" "hunter2" "rotate" "org-1" "p", []) []
     = (Returns
          {| Diagnostics := [idGenerationError];
             State :=
               Some {| SecretResource.Secrets :=
                         [SecretResource.fromResponse storedSecret];
                       SecretResource.Id := types.StringValue "" |} |},
        [CallSecretsCreate "db_password" "hunter2" "rotate" "org-1" ["p"]]).
Proof.
  destruct (Create_goes_on_after_uuid_error "" "entropy source failed" []
              eq_refl) as (_ & _ & Hproject & Hsecret).
  split; [reflexivity | split].
  - exact (Hproject storedProject storedSecret (oneProject "infra" "org-1") []).
  - exact (Hsecret storedProject storedSecret
             (oneSecret "db_password" "hunter2" "rotate" "org-1" "p") []).
Defined.

(** C3 for one project id: two records in the state. *)
Lemma dataSource_Read_appends_witness :
  collect (projectDataSource.getCall memory.client) [projectById "p"] [] oneEach
    = (Ok [storedProject], oneEach)
  /\ List.length ([projectById "p"]
                  ++ List.map projectDataSource.fromResponse [storedProject])
     = 2 * List.length [projectById "p"]
  /\ projectDataSource.Read memory.client
       {| projectDataSource.Projects := [projectById "p"];
          projectDataSource.ID := types.StringNull |} oneEach
     = (Returns
          {| Diagnostics := [];
             State :=
               Some {| projectDataSource.Projects :=
                         [projectById "p"; projectDataSource.fromResponse storedProject];
                       projectDataSource.ID := types.StringNull |} |},
        oneEach).
Proof.
  destruct (dataSource_Read_appends memory.client) as (Hread & Hlen & _ & _).
  split; [reflexivity | split].
  - exact (Hlen {| projectDataSource.Projects := [projectById "p"];
                   projectDataSource.ID := types.StringNull |}
             oneEach oneEach [storedProject] eq_refl).
  - rewrite Hread. reflexivity.
Defined.

(** C10 against a client that answers with a secret of no project. *)
Lemma nil_ProjectID_panics_witness :
  SecretResource.Update (canned storedProject orphanSecret)
    (oneSecret "db_password" "hunter2" "rotate" "org-1" "p", []) tt
  = (Panics {| Diagnostics := []; State := None |}, tt)
  /\ secretDataSource.Read (canned storedProject orphanSecret)
       {| secretDataSource.Secrets := [] ++ secretById "s" :: [];
          secretDataSource.ID := types.StringNull |} tt
     = (Panics {| Diagnostics := []; State := None |}, tt).
Proof.
  destruct (nil_ProjectID_panics (canned storedProject orphanSecret))
    as [Hupdate Hread].
  split.
  - apply (Hupdate _ [] tt tt [orphanSecret]); [reflexivity | reflexivity |].
    apply Exists_cons_hd. reflexivity.
  - apply (Hread [] [] (secretById "s") types.StringNull tt tt tt []
             orphanSecret); [reflexivity | constructor | reflexivity | reflexivity].
Defined.

(** * Further properties of the callbacks *)

(** ** Provider configuration *)


Section ConfigureGates.
Import BitwardenSecretsProvider.
Context {Client : Type} (sdk : Sdk Client) (getenv : Environ).

(** The diagnostics after the three unknown checks. *)
Lemma Configure_unknown config diags :
  diag.HasError diags = false ->
  allKnown config = false ->
  Configure sdk getenv {| Config_Get := (config, diags) |} =
    {| outcome := Returns (onlyDiags Client (diags ++ unknownDiagnostics config));
       calls := [] |}
  /\ diag.HasError (diags ++ unknownDiagnostics config) = true.
Proof.
  intros Hd Hk. unfold Configure. cbn [Config_Get].
  rewrite Append_nil_l, Hd. unfold allKnown in Hk. unfold unknownDiagnostics.
  assert (He : forall xs : diag.Diagnostics,
             diag.HasError (diags ++ xs) = diag.HasError xs).
  { intros xs. unfold diag.HasError in *. now rewrite existsb_app, Hd. }
  destruct (types.IsUnknown (ApiUrl config)),
           (types.IsUnknown (IdentityUrl config)),
           (types.IsUnknown (AccessToken config));
    try discriminate Hk;
    unfold diag.AddAttributeError, diag.Append;
    rewrite <- ?app_assoc; cbn [app];
    (split; [| now rewrite He]);
    match goal with
    | |- context [diag.HasError ?l] =>
        replace (diag.HasError l) with true by (now rewrite He)
    end; reflexivity.
Qed.

End ConfigureGates.

Section ConfigureMore.
Import BitwardenSecretsProvider.
Context {Client : Type} (sdk : Sdk Client) (getenv : Environ).

(** A run that stops at one of the three gates. *)
Lemma Configure_gate config diags :
  diag.HasError diags = true \/ allKnown config = false
  \/ resolvedAccessToken getenv config = "" ->
  exists ds,
    Configure sdk getenv {| Config_Get := (config, diags) |} =
      {| outcome := Returns (onlyDiags Client ds); calls := [] |}
    /\ diag.HasError ds = true.
Proof.
  intros Hgate.
  destruct (diag.HasError diags) eqn:Hd.
  { exists diags. split; [| exact Hd].
    unfold Configure. cbn [Config_Get]. now rewrite Append_nil_l, Hd. }
  destruct (allKnown config) eqn:Hk.
  2:{ destruct (Configure_unknown sdk getenv config diags Hd Hk) as [Hrun He].
      eexists. split; [exact Hrun | exact He]. }
  destruct Hgate as [Hg | [Hg | Ht]]; try discriminate Hg.
  unfold allKnown in Hk.
  apply andb_true_iff in Hk as [Hk Hk3]. apply andb_true_iff in Hk as [Hk1 Hk2].
  apply negb_true_iff in Hk1, Hk2, Hk3.
  apply str_eq_true in Ht. unfold resolvedAccessToken in Ht.
  unfold Configure. cbn [Config_Get]. rewrite Append_nil_l, Hd, Hk1, Hk2, Hk3, Hd.
  destruct (resolve getenv config) as [[a i] t]. cbn [fst snd] in *.
  rewrite Ht, HasError_AddAttributeError.
  eexists. split; [reflexivity | apply HasError_AddAttributeError].
Qed.



(** [Configure] reaches the SDK only past its three gates.  If decoding
    the configuration reported an error, or an attribute is unknown, or
    the resolved access token is empty, the run returns with an error,
    makes no SDK call and stores no client. *)
Theorem Configure_gates_make_no_call :
  forall (config : bitwardenProviderModel) (diags : diag.Diagnostics),
    diag.HasError diags = true \/ allKnown config = false
    \/ resolvedAccessToken getenv config = "" ->
    exists r,
      Configure sdk getenv {| Config_Get := (config, diags) |} =
        {| outcome := Returns r; calls := [] |}
      /\ diag.HasError (Diagnostics r) = true
      /\ DataSourceData r = None /\ ResourceData r = None.
Proof.
  intros config diags Hgate.
  destruct (Configure_gate config diags Hgate) as (ds & Hrun & He).
  exists (onlyDiags Client ds). now repeat split.
Qed.

(** Every unknown attribute is reported in the same run, in the order
    api_url, Identity_url, access_token, and nothing else is: the access
    token is not examined once an attribute is unknown. *)
Theorem Configure_reports_every_unknown :
  forall (config : bitwardenProviderModel) (diags : diag.Diagnostics),
    diag.HasError diags = false ->
    allKnown config = false ->
    exists r,
      outcome (Configure sdk getenv {| Config_Get := (config, diags) |}) = Returns r
      /\ Diagnostics r = diags ++ unknownDiagnostics config
      /\ List.length (unknownDiagnostics config) =
           (if types.IsUnknown (ApiUrl config) then 1 else 0)
           + (if types.IsUnknown (IdentityUrl config) then 1 else 0)
           + (if types.IsUnknown (AccessToken config) then 1 else 0).
Proof.
  intros config diags Hd Hk.
  destruct (Configure_unknown sdk getenv config diags Hd Hk) as [Hrun _].
  exists (onlyDiags Client (diags ++ unknownDiagnostics config)).
  rewrite Hrun. repeat split.
  unfold unknownDiagnostics.
  destruct (types.IsUnknown (ApiUrl config)),
           (types.IsUnknown (IdentityUrl config)),
           (types.IsUnknown (AccessToken config)); reflexivity.
Qed.

(** A login that fails is reported, with the SDK's message at the end of
    the detail, and the client is stored in both fields all the same. *)
Theorem Configure_login_error_keeps_client :
  forall (config : bitwardenProviderModel) (diags : diag.Diagnostics)
         (c : Client) (e : string),
    diag.HasError diags = false ->
    allKnown config = true ->
    resolvedAccessToken getenv config <> "" ->
    NewBitwardenClient sdk (clientApiUrl getenv config)
      (clientIdentityUrl getenv config) = (Some c, None) ->
    AccessTokenLogin sdk c (resolvedAccessToken getenv config) = Some e ->
    outcome (Configure sdk getenv {| Config_Get := (config, diags) |}) =
      Returns
        {| Diagnostics :=
             diags ++
             [diag.mkDiagnostic diag.SeverityError None
                "Unable to login to Bitwarden Secrets Manager"
                ("Either the access token is not valid or there is some communication issues: "
                 ++ e)];
           DataSourceData := Some c;
           ResourceData := Some c |}.
Proof.
  intros config diags c e Hd Hk Ht Hnew Hlogin.
  rewrite Configure_past_gates by assumption. cbv zeta.
  unfold clientApiUrl, clientIdentityUrl in Hnew. rewrite Hnew, Hlogin.
  reflexivity.
Qed.

(** An access token configured as the empty string is not replaced by
    BW_ACCESS_TOKEN: whatever the environment and the other attributes,
    the run fails and makes no SDK call. *)
Theorem Configure_empty_string_token :
  forall (a i : types.String) (diags : diag.Diagnostics),
    let run :=
      Configure sdk getenv
        {| Config_Get :=
             ({| ApiUrl := a; IdentityUrl := i;
                 AccessToken := types.StringValue "" |}, diags) |} in
    succeeded run = false /\ calls run = [].
Proof.
  intros a i diags run. subst run.
  destruct (Configure_gate
              {| ApiUrl := a; IdentityUrl := i; AccessToken := types.StringValue "" |}
              diags) as (ds & Hrun & He).
  { right. right. reflexivity. }
  rewrite Hrun. unfold succeeded. cbn. split; [| reflexivity].
  unfold diag.HasError in He. now rewrite He.
Qed.


End ConfigureMore.

(** ** More on the loops *)

Section LoopsMore.
Context {St I R M : Type}.

(** The loop over a list continues from where the loop over a prefix
    ended. *)
Lemma collect_app (call : I -> St -> result R * St) (pre rest : list I) :
  forall (s s1 : St) (rs : list R),
    collect call pre [] s = (Ok rs, s1) ->
    collect call (pre ++ rest) [] s =
      match collect call rest [] s1 with
      | (Ok rs', s2) => (Ok (rs ++ rs'), s2)
      | (Err e, s2) => (Err e, s2)
      end.
Proof.
  induction pre as [| x pre IH]; intros s s1 rs.
  - cbn. intros [= <- <-].
    destruct (collect call rest [] s) as [[rs' | e] s2]; reflexivity.
  - cbn [app]. rewrite !collect_cons.
    destruct (call x s) as [[r | e] s']; [| discriminate].
    destruct (collect call pre [] s') as [[rs0 | e] s0] eqn:E; [| discriminate].
    intros [= <- <-]. rewrite (IH s' s0 rs0 E).
    destruct (collect call rest [] s0) as [[rs' | e] s2]; reflexivity.
Qed.

Lemma collect_first_error (call : I -> St -> result R * St)
    (pre post : list I) (x : I) (s s1 s2 : St) (rs : list R) (e : string) :
  collect call pre [] s = (Ok rs, s1) ->
  call x s1 = (Err e, s2) ->
  collect call (pre ++ x :: post) [] s = (Err e, s2).
Proof.
  intros Hpre Hx. rewrite (collect_app call pre (x :: post) s s1 rs Hpre).
  rewrite collect_cons, Hx. reflexivity.
Qed.

(** A write-back that does not panic keeps the length of the list. *)
Lemma assignEach_length (conv : R -> option M) (rs : list R) :
  forall (i : nat) (data out : list M),
    assignEach conv rs i data = Some out -> List.length out = List.length data.
Proof.
  induction rs as [| r rest IH]; intros i data out; cbn [assignEach].
  - now intros [= <-].
  - destruct (conv r) as [m |]; [| discriminate].
    destruct (Nat.ltb i (List.length data)); [| discriminate].
    intros H. apply IH in H. now rewrite length_insert in H.
Qed.

(** A write-back whose elements can all be built writes them. *)
Lemma assignEach_built (conv : R -> option M) (rs : list R) (ms : list M) :
  Forall2 (fun r m => conv r = Some m) rs ms ->
  forall data : list M,
    List.length rs = List.length data ->
    assignEach conv rs 0 data = Some ms.
Proof.
  intros Hall data Hlen.
  assert (Hgen : forall i data,
             i + List.length rs <= List.length data ->
             assignEach conv rs i data
             = Some (take i data ++ ms ++ drop (i + List.length rs) data)).
  { clear data Hlen.
    induction Hall as [| r m rest ms' Hr _ IH]; intros i data Hlen;
      cbn [assignEach List.length app] in *.
    - rewrite Nat.add_0_r, take_drop. reflexivity.
    - rewrite Hr.
      assert (Hi : i < List.length data) by lia.
      apply Nat.ltb_lt in Hi as Hb. rewrite Hb.
      rewrite IH by (rewrite length_insert; lia).
      f_equal.
      rewrite (take_S_r _ i m) by (now apply list_lookup_insert_eq).
      rewrite take_insert_ge by lia.
      rewrite drop_insert_lt by lia.
      rewrite <- app_assoc. cbn [app].
      now replace (S i + List.length rest) with (i + S (List.length rest)) by lia. }
  rewrite Hgen by (cbn; lia).
  cbn. rewrite Hlen, drop_all, app_nil_r. reflexivity.
Qed.

End LoopsMore.

Lemma Append_single (ds : diag.Diagnostics) (sum det : string) :
  diag.AddError sum det ds
  = ds ++ [diag.mkDiagnostic diag.SeverityError None sum det].
Proof. reflexivity. Qed.

(** ** The resource callbacks past the decoding of the request *)

Section ResourceEquations.
Context {St : Type} (client : bitwarden.BitwardenClientInterface St).

Ltac past_decoding Hd :=
  rewrite Append_nil_l, Hd;
  cbn [ProjectResource.Projects ProjectResource.Id
       SecretResource.Secrets SecretResource.Id fst snd];
  let E := fresh "E" in
  destruct (collect _ _ [] _) as [[? | ?] ?] eqn:E;
  [ rewrite assignEach_all by (now apply collect_length in E);
    now rewrite ?Append_nil_r
  | reflexivity ].

Lemma project_Create_eq (uuid : GenerateUUID)
    (data : ProjectResource.ProjectResourceModel) (diags : diag.Diagnostics)
    (s : St) :
  diag.HasError diags = false ->
  ProjectResource.Create client uuid (data, diags) s =
    match collect (ProjectResource.createCall client)
            (ProjectResource.Projects data) [] s with
    | (Ok rs, s') =>
        (Returns
           {| Diagnostics := afterUUID uuid diags;
              State :=
                Some {| ProjectResource.Projects :=
                          List.map ProjectResource.fromResponse rs;
                        ProjectResource.Id := types.StringValue (fst uuid) |} |},
         s')
    | (Err e, s') =>
        (Returns
           {| Diagnostics :=
                diag.AddError "Error creating project"
                  ("Could not create project, unexpected error: " ++ e)
                  (afterUUID uuid diags);
              State := None |},
         s')
    end.
Proof.
  intros Hd. destruct uuid as [resourceId [err |]];
    unfold ProjectResource.Create, afterUUID; past_decoding Hd.
Qed.

Lemma project_Read_eq (data : ProjectResource.ProjectResourceModel)
    (diags : diag.Diagnostics) (s : St) :
  diag.HasError diags = false ->
  ProjectResource.Read client (data, diags) s =
    match collect (ProjectResource.getCall client)
            (ProjectResource.Projects data) [] s with
    | (Ok rs, s') =>
        (Returns
           {| Diagnostics := diags;
              State :=
                Some {| ProjectResource.Projects :=
                          List.map ProjectResource.fromResponse rs;
                        ProjectResource.Id := ProjectResource.Id data |} |},
         s')
    | (Err e, s') =>
        (Returns
           {| Diagnostics :=
                diag.AddError "Error creating project"
                  ("Could not find project, unexpected error: " ++ e) diags;
              State := None |},
         s')
    end.
Proof. intros Hd. unfold ProjectResource.Read. past_decoding Hd. Qed.

Lemma project_Update_eq (data : ProjectResource.ProjectResourceModel)
    (diags : diag.Diagnostics) (s : St) :
  diag.HasError diags = false ->
  ProjectResource.Update client (data, diags) s =
    match collect (ProjectResource.updateCall client)
            (ProjectResource.Projects data) [] s with
    | (Ok rs, s') =>
        (Returns
           {| Diagnostics := diags;
              State :=
                Some {| ProjectResource.Projects :=
                          List.map ProjectResource.fromResponse rs;
                        ProjectResource.Id := ProjectResource.Id data |} |},
         s')
    | (Err e, s') =>
        (Returns
           {| Diagnostics :=
                diag.AddError "Error creating project"
                  ("Could not update project, unexpected error: " ++ e) diags;
              State := None |},
         s')
    end.
Proof. intros Hd. unfold ProjectResource.Update. past_decoding Hd. Qed.

Lemma secret_Create_eq (uuid : GenerateUUID)
    (data : SecretResource.SecretResourceModel) (diags : diag.Diagnostics)
    (s : St) :
  diag.HasError diags = false ->
  SecretResource.Create client uuid (data, diags) s =
    match collect (SecretResource.createCall client)
            (SecretResource.Secrets data) [] s with
    | (Ok rs, s') =>
        (Returns
           {| Diagnostics := afterUUID uuid diags;
              State :=
                Some {| SecretResource.Secrets :=
                          List.map SecretResource.fromResponse rs;
                        SecretResource.Id := types.StringValue (fst uuid) |} |},
         s')
    | (Err e, s') =>
        (Returns
           {| Diagnostics :=
                diag.AddError "Error creating secret"
                  ("Could not create secret, unexpected error: " ++ e)
                  (afterUUID uuid diags);
              State := None |},
         s')
    end.
Proof.
  intros Hd. destruct uuid as [resourceId [err |]];
    unfold SecretResource.Create, afterUUID; past_decoding Hd.
Qed.

Lemma secret_Read_eq (data : SecretResource.SecretResourceModel)
    (diags : diag.Diagnostics) (s : St) :
  diag.HasError diags = false ->
  SecretResource.Read client (data, diags) s =
    match collect (SecretResource.getCall client)
            (SecretResource.Secrets data) [] s with
    | (Ok rs, s') =>
        (Returns
           {| Diagnostics := diags;
              State :=
                Some {| SecretResource.Secrets :=
                          List.map SecretResource.fromResponse rs;
                        SecretResource.Id := SecretResource.Id data |} |},
         s')
    | (Err e, s') =>
        (Returns
           {| Diagnostics :=
                diag.AddError "Error creating secret"
                  ("Could not find secret, unexpected error: " ++ e) diags;
              State := None |},
         s')
    end.
Proof. intros Hd. unfold SecretResource.Read. past_decoding Hd. Qed.

Lemma secret_Update_eq (data : SecretResource.SecretResourceModel)
    (diags : diag.Diagnostics) (s : St) :
  diag.HasError diags = false ->
  SecretResource.Update client (data, diags) s =
    match collect (SecretResource.updateCall client)
            (SecretResource.Secrets data) [] s with
    | (Ok rs, s') =>
        match assignEach SecretResource.fromUpdateResponse rs 0
                (SecretResource.Secrets data) with
        | Some secrets =>
            (Returns
               {| Diagnostics := diags;
                  State :=
                    Some {| SecretResource.Secrets := secrets;
                            SecretResource.Id := SecretResource.Id data |} |},
             s')
        | None => (Panics {| Diagnostics := diags; State := None |}, s')
        end
    | (Err e, s') =>
        (Returns
           {| Diagnostics :=
                diag.AddError "Error creating secret"
                  ("Could not update secret, unexpected error: " ++ e) diags;
              State := None |},
         s')
    end.
Proof.
  intros Hd. unfold SecretResource.Update. rewrite Append_nil_l, Hd.
  destruct (collect _ _ [] s) as [[rs | e] s']; [| reflexivity].
  destruct (assignEach _ rs 0 _); [now rewrite Append_nil_r | reflexivity].
Qed.

End ResourceEquations.

(** ** What the resource callbacks do for every client *)

Section ResourceMore.
Context {St : Type} (client : bitwarden.BitwardenClientInterface St).

(** When decoding the plan or the prior state reported an error, every
    callback of the two resources returns at once: the diagnostics are
    those of the decoding, no state is written, and the service is left
    as it was, no call having been made. *)
Theorem resource_callbacks_decode_gate :
  forall (D : Type) (deleter : bitwarden.BitwardenDeleteInterface St D)
         (diags : diag.Diagnostics),
    diag.HasError diags = true ->
    (forall uuid data s,
        ProjectResource.Create client uuid (data, diags) s
        = (Returns {| Diagnostics := diags; State := None |}, s))
    /\ (forall data s,
        ProjectResource.Read client (data, diags) s
        = (Returns {| Diagnostics := diags; State := None |}, s))
    /\ (forall data s,
        ProjectResource.Update client (data, diags) s
        = (Returns {| Diagnostics := diags; State := None |}, s))
    /\ (forall data s,
        ProjectResource.Delete deleter (data, diags) s
        = (Returns {| Diagnostics := diags; State := None |}, s))
    /\ (forall uuid data s,
        SecretResource.Create client uuid (data, diags) s
        = (Returns {| Diagnostics := diags; State := None |}, s))
    /\ (forall data s,
        SecretResource.Read client (data, diags) s
        = (Returns {| Diagnostics := diags; State := None |}, s))
    /\ (forall data s,
        SecretResource.Update client (data, diags) s
        = (Returns {| Diagnostics := diags; State := None |}, s))
    /\ (forall data s,
        SecretResource.Delete deleter (data, diags) s
        = (Returns {| Diagnostics := diags; State := None |}, s)).
Proof.
  intros D deleter diags Hd.
  repeat split; intros;
    unfold ProjectResource.Create, ProjectResource.Read, ProjectResource.Update,
      ProjectResource.Delete, SecretResource.Create, SecretResource.Read,
      SecretResource.Update, SecretResource.Delete;
    now rewrite Append_nil_l, Hd.
Qed.

(** A state that [Create], [Read] or [Update] of either resource writes
    when it returns has one element per element of the request, under
    the tracking id that was generated ([Create]) or that the request
    carried ([Read], [Update]); this for every client and every
    request. *)
Theorem resource_callbacks_keep_shape :
  (forall uuid data diags s r s' m,
      ProjectResource.Create client uuid (data, diags) s = (Returns r, s') ->
      State r = Some m ->
      List.length (ProjectResource.Projects m)
      = List.length (ProjectResource.Projects data)
      /\ ProjectResource.Id m = types.StringValue (fst uuid))
  /\ (forall data diags s r s' m,
      ProjectResource.Read client (data, diags) s = (Returns r, s') ->
      State r = Some m ->
      List.length (ProjectResource.Projects m)
      = List.length (ProjectResource.Projects data)
      /\ ProjectResource.Id m = ProjectResource.Id data)
  /\ (forall data diags s r s' m,
      ProjectResource.Update client (data, diags) s = (Returns r, s') ->
      State r = Some m ->
      List.length (ProjectResource.Projects m)
      = List.length (ProjectResource.Projects data)
      /\ ProjectResource.Id m = ProjectResource.Id data)
  /\ (forall uuid data diags s r s' m,
      SecretResource.Create client uuid (data, diags) s = (Returns r, s') ->
      State r = Some m ->
      List.length (SecretResource.Secrets m)
      = List.length (SecretResource.Secrets data)
      /\ SecretResource.Id m = types.StringValue (fst uuid))
  /\ (forall data diags s r s' m,
      SecretResource.Read client (data, diags) s = (Returns r, s') ->
      State r = Some m ->
      List.length (SecretResource.Secrets m)
      = List.length (SecretResource.Secrets data)
      /\ SecretResource.Id m = SecretResource.Id data)
  /\ (forall data diags s r s' m,
      SecretResource.Update client (data, diags) s = (Returns r, s') ->
      State r = Some m ->
      List.length (SecretResource.Secrets m)
      = List.length (SecretResource.Secrets data)
      /\ SecretResource.Id m = SecretResource.Id data).
Proof.
  refine (conj _ (conj _ (conj _ (conj _ (conj _ _))))); intros until m;
    (destruct (diag.HasError diags) eqn:Hd;
     [ unfold ProjectResource.Create, ProjectResource.Read,
         ProjectResource.Update, SecretResource.Create, SecretResource.Read,
         SecretResource.Update;
       rewrite Append_nil_l, Hd; intros [= <- _]; discriminate |]);
    rewrite ?project_Create_eq, ?project_Read_eq, ?project_Update_eq,
      ?secret_Create_eq, ?secret_Read_eq, ?secret_Update_eq by exact Hd;
    destruct (collect _ _ [] s) as [[rs | e] s1] eqn:E;
    try (intros [= <- _]; discriminate);
    try (intros [= <- _] [= <-]; cbn; rewrite length_map;
         split; [exact (collect_length _ _ _ _ _ E) | reflexivity]).
  all: destruct (assignEach _ rs 0 _) as [secrets |] eqn:Ea; [| discriminate].
  all: intros [= <- _] [= <-]; cbn.
  all: split; [exact (assignEach_length _ _ _ _ _ Ea) | reflexivity].
Qed.

(** The loops of the six callbacks stop at the first client call that
    fails.  The calls before it are not undone, those after it are not
    made, no state is written, and the one diagnostic added carries the
    client's message; its summary says "Error creating ..." also for
    [Read] and [Update]. *)
Theorem resource_callbacks_stop_at_first_error :
  forall diags : diag.Diagnostics,
    diag.HasError diags = false ->
    (forall uuid id,
        stopsAtFirstError
          (fun items =>
             ProjectResource.Create client uuid
               ({| ProjectResource.Projects := items; ProjectResource.Id := id |},
                diags))
          (ProjectResource.createCall client) (afterUUID uuid diags)
          "Error creating project" "Could not create project, unexpected error: ")
    /\ (forall id,
        stopsAtFirstError
          (fun items =>
             ProjectResource.Read client
               ({| ProjectResource.Projects := items; ProjectResource.Id := id |},
                diags))
          (ProjectResource.getCall client) diags
          "Error creating project" "Could not find project, unexpected error: ")
    /\ (forall id,
        stopsAtFirstError
          (fun items =>
             ProjectResource.Update client
               ({| ProjectResource.Projects := items; ProjectResource.Id := id |},
                diags))
          (ProjectResource.updateCall client) diags
          "Error creating project" "Could not update project, unexpected error: ")
    /\ (forall uuid id,
        stopsAtFirstError
          (fun items =>
             SecretResource.Create client uuid
               ({| SecretResource.Secrets := items; SecretResource.Id := id |},
                diags))
          (SecretResource.createCall client) (afterUUID uuid diags)
          "Error creating secret" "Could not create secret, unexpected error: ")
    /\ (forall id,
        stopsAtFirstError
          (fun items =>
             SecretResource.Read client
               ({| SecretResource.Secrets := items; SecretResource.Id := id |},
                diags))
          (SecretResource.getCall client) diags
          "Error creating secret" "Could not find secret, unexpected error: ")
    /\ (forall id,
        stopsAtFirstError
          (fun items =>
             SecretResource.Update client
               ({| SecretResource.Secrets := items; SecretResource.Id := id |},
                diags))
          (SecretResource.updateCall client) diags
          "Error creating secret" "Could not update secret, unexpected error: ").
Proof.
  intros diags Hd.
  repeat split; intros; intros pre post x s s1 s2 rs e Hpre Hx;
    rewrite ?project_Create_eq, ?project_Read_eq, ?project_Update_eq,
      ?secret_Create_eq, ?secret_Read_eq, ?secret_Update_eq by exact Hd;
    cbn [ProjectResource.Projects SecretResource.Secrets];
    rewrite (collect_first_error _ pre post x s s1 s2 rs e Hpre Hx);
    reflexivity.
Qed.

(** When every update call succeeds and every response names a project,
    secret [Update] returns and writes one element per response, in
    order, each with the response's id, key, value, note, organization
    and project; the tracking id is the plan's. *)
Theorem secret_Update_writes_responses :
  forall (data : SecretResource.SecretResourceModel) (diags : diag.Diagnostics)
         (s s' : St) (rs : list bitwarden.SecretResponse),
    diag.HasError diags = false ->
    collect (SecretResource.updateCall client)
      (SecretResource.Secrets data) [] s = (Ok rs, s') ->
    Forall (fun r => bitwarden.ProjectID r <> None) rs ->
    exists secrets,
      SecretResource.Update client (data, diags) s =
        (Returns
           {| Diagnostics := diags;
              State :=
                Some {| SecretResource.Secrets := secrets;
                        SecretResource.Id := SecretResource.Id data |} |},
         s')
      /\ Forall2
           (fun r m =>
              exists projectID,
                bitwarden.ProjectID r = Some projectID
                /\ m = {| SecretResource.SecretId := types.StringValue (bitwarden.ID r);
                          SecretResource.Key := types.StringValue (bitwarden.Key r);
                          SecretResource.Value := types.StringValue (bitwarden.Value r);
                          SecretResource.Note := types.StringValue (bitwarden.Note r);
                          SecretResource.OrganizationId :=
                            types.StringValue (bitwarden.OrganizationID r);
                          SecretResource.ProjectId := types.StringValue projectID |})
           rs secrets.
Proof.
  intros data diags s s' rs Hd Hc Hall.
  assert (Hms : exists ms,
             Forall2 (fun r m => SecretResource.fromUpdateResponse r = Some m) rs ms).
  { clear Hc. induction Hall as [| r rest Hr _ [ms IH]]; [now exists [] |].
    unfold SecretResource.fromUpdateResponse at 1.
    destruct (bitwarden.ProjectID r) as [p |] eqn:Ep; [| contradiction].
    eexists (_ :: ms). constructor; [| exact IH].
    unfold SecretResource.fromUpdateResponse. now rewrite Ep. }
  destruct Hms as [ms Hms]. exists ms. split.
  - rewrite secret_Update_eq, Hc by exact Hd.
    now rewrite (assignEach_built _ rs ms Hms) by (now apply collect_length in Hc).
  - eapply Forall2_impl; [exact Hms |].
    intros r m. unfold SecretResource.fromUpdateResponse.
    destruct (bitwarden.ProjectID r) as [p |]; [| discriminate].
    intros [= <-]. now exists p.
Qed.

(** Whatever the client answers, every element of a state that secret
    [Create] or [Read] writes has a null project id; so a [Read] of what
    [Update] wrote forgets the projects again. *)
Theorem secret_Create_Read_null_project :
  (forall uuid plan s r s',
      SecretResource.Create client uuid plan s = (Returns r, s') ->
      forall m, State r = Some m ->
        Forall (fun item => SecretResource.ProjectId item = types.StringNull)
          (SecretResource.Secrets m))
  /\ (forall prior s r s',
      SecretResource.Read client prior s = (Returns r, s') ->
      forall m, State r = Some m ->
        Forall (fun item => SecretResource.ProjectId item = types.StringNull)
          (SecretResource.Secrets m)).
Proof.
  assert (Hmap : forall rs,
             Forall (fun item => SecretResource.ProjectId item = types.StringNull)
               (List.map SecretResource.fromResponse rs)).
  { intros rs. apply Forall_forall. intros x Hx.
    apply list_elem_of_In, in_map_iff in Hx as (r & <- & _). reflexivity. }
  split.
  - intros uuid [data diags] s r s'.
    destruct (diag.HasError diags) eqn:Hd.
    + unfold SecretResource.Create. rewrite Append_nil_l, Hd.
      intros [= <- _] m. discriminate.
    + rewrite secret_Create_eq by exact Hd.
      destruct (collect _ _ [] s) as [[rs | e] s1].
      * intros [= <- _] m [= <-]. apply Hmap.
      * intros [= <- _] m. discriminate.
  - intros [data diags] s r s'.
    destruct (diag.HasError diags) eqn:Hd.
    + unfold SecretResource.Read. rewrite Append_nil_l, Hd.
      intros [= <- _] m. discriminate.
    + rewrite secret_Read_eq by exact Hd.
      destruct (collect _ _ [] s) as [[rs | e] s1].
      * intros [= <- _] m [= <-]. apply Hmap.
      * intros [= <- _] m. discriminate.
Qed.

End ResourceMore.

(** ** Deletion *)

Section DeleteFacts.
Context {St D : Type} (deleter : bitwarden.BitwardenDeleteInterface St D).

(** [Delete] makes one batch call, with the identifiers of the prior
    state in order (none, for an empty state); it reports an error
    exactly when that call fails, whatever the batch report says, and it
    never writes a state. *)
Theorem Delete_is_one_batch_call :
  forall diags : diag.Diagnostics,
    diag.HasError diags = false ->
    (forall data s,
        let call :=
          bitwarden.Projects_Delete deleter (ProjectResource.idsToDelete data) s in
        exists r,
          ProjectResource.Delete deleter (data, diags) s = (Returns r, snd call)
          /\ State r = None
          /\ (diag.HasError (Diagnostics r) = true <-> exists e, fst call = Err e))
    /\ (forall data s,
        let call :=
          bitwarden.Secrets_Delete deleter (SecretResource.idsToDelete data) s in
        exists r,
          SecretResource.Delete deleter (data, diags) s = (Returns r, snd call)
          /\ State r = None
          /\ (diag.HasError (Diagnostics r) = true <-> exists e, fst call = Err e)).
Proof.
  intros diags Hd. split; intros data s call; subst call.
  - unfold ProjectResource.Delete. rewrite Append_nil_l, Hd.
    destruct (bitwarden.Projects_Delete deleter _ s) as [[d | e] s'];
      (eexists; split; [reflexivity | split; [reflexivity |]]);
      cbn [Diagnostics fst].
    + rewrite Hd. split; [discriminate | intros [e He]; discriminate].
    + split; [now exists e | intros _; apply HasError_AddError].
  - unfold SecretResource.Delete. rewrite Append_nil_l, Hd.
    destruct (bitwarden.Secrets_Delete deleter _ s) as [[d | e] s'];
      (eexists; split; [reflexivity | split; [reflexivity |]]);
      cbn [Diagnostics fst].
    + rewrite Hd. split; [discriminate | intros [e He]; discriminate].
    + split; [now exists e | intros _; apply HasError_AddError].
Qed.

End DeleteFacts.

(** Looking up a listed identifier after the batch deletion finds
    nothing. *)
Lemma find_deleted {R : Type} (key : R -> string) (ids : list string)
    (id : string) (l : list R) :
  In id ids ->
  List.find (fun r => str_eq (key r) id)
    (List.filter (fun r => negb (memory.listed ids (key r))) l) = None.
Proof.
  intros Hin. induction l as [| x rest IH]; [reflexivity |].
  cbn [List.filter].
  destruct (memory.listed ids (key x)) eqn:El; cbn [negb]; [exact IH |].
  cbn [List.find].
  destruct (str_eq (key x) id) eqn:E; [| exact IH].
  apply str_eq_true in E. subst id.
  assert (memory.listed ids (key x) = true).
  { unfold memory.listed. apply existsb_exists. exists (key x).
    split; [exact Hin | now apply str_eq_true]. }
  congruence.
Qed.

(** Against the in-memory client, whatever it holds: the projects
    (secrets) of a plan with at least one element are created, the
    state [Create] wrote is deleted without any diagnostic, and a [Read]
    of that state then fails at its first lookup and writes nothing. *)
Theorem Delete_then_Read_fails :
  (forall (x : ProjectResource.projectItemModel) rest id resourceId
          (st : memory.Store),
      exists created st1 st2,
        ProjectResource.Create memory.client (resourceId, None)
          ({| ProjectResource.Projects := x :: rest; ProjectResource.Id := id |}, [])
          st
        = (Returns {| Diagnostics := []; State := Some created |}, st1)
        /\ ProjectResource.Delete memory.deleter (created, []) st1
           = (Returns {| Diagnostics := []; State := None |}, st2)
        /\ ProjectResource.Read memory.client (created, []) st2
           = (Returns
                {| Diagnostics :=
                     [diag.mkDiagnostic diag.SeverityError None
                        "Error creating project"
                        "Could not find project, unexpected error: project not found"];
                   State := None |},
              st2))
  /\ (forall (x : SecretResource.secretItemModel) rest id resourceId
             (st : memory.Store),
      exists created st1 st2,
        SecretResource.Create memory.client (resourceId, None)
          ({| SecretResource.Secrets := x :: rest; SecretResource.Id := id |}, [])
          st
        = (Returns {| Diagnostics := []; State := Some created |}, st1)
        /\ SecretResource.Delete memory.deleter (created, []) st1
           = (Returns {| Diagnostics := []; State := None |}, st2)
        /\ SecretResource.Read memory.client (created, []) st2
           = (Returns
                {| Diagnostics :=
                     [diag.mkDiagnostic diag.SeverityError None
                        "Error creating secret"
                        "Could not find secret, unexpected error: secret not found"];
                   State := None |},
              st2)).
Proof.
  destruct memory_creates_succeed as [Hsecrets Hprojects].
  split.
  - intros x rest id resourceId st.
    destruct (Hprojects (x :: rest) st) as (rs & st1 & Hc).
    pose proof (collect_length _ _ _ _ _ Hc) as Hlen.
    destruct rs as [| r rs']; [discriminate Hlen |].
    eexists _, st1, _. split; [| split].
    + rewrite project_Create_eq by reflexivity.
      cbn [ProjectResource.Projects]. rewrite Hc. reflexivity.
    + reflexivity.
    + rewrite project_Read_eq by reflexivity.
      cbn [ProjectResource.Projects List.map]. rewrite collect_cons.
      unfold ProjectResource.getCall at 1. cbn [ProjectResource.fromResponse
        ProjectResource.ProjectId types.ValueString bitwarden.Projects_Get
        memory.client].
      unfold memory.Projects_Get, memory.findProject. cbn [memory.projects].
      rewrite find_deleted; [reflexivity |].
      unfold ProjectResource.idsToDelete. cbn. now left.
  - intros x rest id resourceId st.
    destruct (Hsecrets (x :: rest) st) as (rs & st1 & Hc).
    pose proof (collect_length _ _ _ _ _ Hc) as Hlen.
    destruct rs as [| r rs']; [discriminate Hlen |].
    eexists _, st1, _. split; [| split].
    + rewrite secret_Create_eq by reflexivity.
      cbn [SecretResource.Secrets]. rewrite Hc. reflexivity.
    + reflexivity.
    + rewrite secret_Read_eq by reflexivity.
      cbn [SecretResource.Secrets List.map]. rewrite collect_cons.
      unfold SecretResource.getCall at 1. cbn [SecretResource.fromResponse
        SecretResource.SecretId types.ValueString bitwarden.Secrets_Get
        memory.client].
      unfold memory.Secrets_Get, memory.findSecret. cbn [memory.secrets].
      rewrite find_deleted; [reflexivity |].
      unfold SecretResource.idsToDelete. cbn. now left.
Qed.

(** ** Clients that apply the updates they are given *)

Section UpdateRoundTrip.
Context {St A R I : Type}
  (update : A -> St -> result R * St) (get : string -> St -> result R * St)
  (key : R -> string) (target : A -> string) (given : A -> R -> Prop)
  (Inv : St -> Prop) (holds : St -> R -> Prop)
  (F : FaithfulUpdate update get key target given Inv holds)
  (args : I -> A).

(** An Update loop over distinct targets that succeeds leaves every
    returned record stored. *)
Lemma collect_update_faithful (items : list I) :
  forall (s : St) (rs : list R) (s1 : St),
    Inv s ->
    NoDup (List.map (fun it => target (args it)) items) ->
    collect (fun it => update (args it)) items [] s = (Ok rs, s1) ->
    Inv s1
    /\ Forall2 (fun it r => given (args it) r /\ key r = target (args it)) items rs
    /\ Forall (holds s1) rs
    /\ (forall r0, holds s r0 ->
          ~ In (key r0) (List.map (fun it => target (args it)) items) ->
          holds s1 r0).
Proof.
  induction items as [| x rest IH]; intros s rs s1 Hinv Hnd.
  - cbn. intros [= <- <-]. repeat split; auto.
  - rewrite collect_cons.
    destruct (update (args x) s) as [[r | e] s2] eqn:Ex; [| discriminate].
    destruct (collect _ rest [] s2) as [[rs' | e] s3] eqn:Erest; [| discriminate].
    intros [= <- <-]. cbn [List.map] in Hnd.
    apply NoDup_cons in Hnd as [Hx Hnd].
    rewrite list_elem_of_In in Hx.
    pose proof (update_inv _ _ _ _ _ _ _ F _ _ _ _ Hinv Ex) as Hinv2.
    destruct (update_stores _ _ _ _ _ _ _ F _ _ _ _ Hinv Ex)
      as (Hgiven & Hkey & Hheld).
    destruct (IH s2 rs' s3 Hinv2 Hnd Erest) as (Hinv3 & Hall2 & Hall & Hkeep).
    repeat split.
    + exact Hinv3.
    + now constructor.
    + constructor; [| exact Hall].
      apply Hkeep; [exact Hheld | now rewrite Hkey].
    + intros r0 H0 Hnot. cbn [List.map] in Hnot.
      apply Hkeep.
      * apply (update_keeps _ _ _ _ _ _ _ F (args x) s (Ok r) s2 r0 Hinv H0);
          [| exact Ex].
        intros Heq. apply Hnot. now left.
      * intros Hin. apply Hnot. now right.
Qed.

(** Records that are stored come back from a Get loop, in order. *)
Lemma collect_get_stored (rs : list R) :
  forall s : St,
    Inv s -> Forall (holds s) rs ->
    exists s2, collect (fun r => get (key r)) rs [] s = (Ok rs, s2).
Proof.
  induction rs as [| r rest IH]; intros s Hinv Hall.
  - exists s. reflexivity.
  - apply Forall_cons in Hall as [Hr Hrest].
    destruct (updated_get_returns _ _ _ _ _ _ _ F s r Hinv Hr) as [s' Hget].
    pose proof (updated_get_inv _ _ _ _ _ _ _ F _ _ _ _ Hinv Hget) as Hinv'.
    assert (Hrest' : Forall (holds s') rest).
    { eapply Forall_impl; [exact Hrest |].
      intros r0 H0.
      exact (updated_get_keeps _ _ _ _ _ _ _ F _ _ _ _ _ Hinv H0 Hget). }
    destruct (IH s' Hinv' Hrest') as [s2 Hloop].
    exists s2. rewrite collect_cons, Hget, Hloop. reflexivity.
Qed.

End UpdateRoundTrip.

Section FaithfulClientMore.
Context {St : Type} (client : bitwarden.BitwardenClientInterface St)
  (Inv : St -> Prop).

(** Against a client that applies the updates it is given, a project
    [Update] whose plan names distinct projects and whose calls succeed
    writes a state with the planned name, organization and project id
    under the plan's tracking id, and a [Read] of that state returns it
    unchanged. *)
Theorem project_Update_then_Read :
  forall (holds : St -> bitwarden.ProjectResponse -> Prop)
         (F : FaithfulProjectUpdates client Inv holds)
         (data : ProjectResource.ProjectResourceModel)
         (diags : diag.Diagnostics) (s s1 : St)
         (rs : list bitwarden.ProjectResponse),
    diag.HasError diags = false ->
    Inv s ->
    NoDup (ProjectResource.idsToDelete data) ->
    collect (ProjectResource.updateCall client)
      (ProjectResource.Projects data) [] s = (Ok rs, s1) ->
    exists updated s2,
      ProjectResource.Update client (data, diags) s
        = (Returns {| Diagnostics := diags; State := Some updated |}, s1)
      /\ ProjectResource.Read client (updated, []) s1
         = (Returns {| Diagnostics := []; State := Some updated |}, s2)
      /\ ProjectResource.Id updated = ProjectResource.Id data
      /\ Forall2 projectUpdatedAs (ProjectResource.Projects data)
           (ProjectResource.Projects updated).
Proof.
  intros holds F data diags s s1 rs Hd Hinv Hnd Hc.
  destruct (collect_update_faithful _ _ _ _ _ _ _ F projectUpdateOf
              (ProjectResource.Projects data) s rs s1 Hinv Hnd Hc)
    as (Hinv1 & Hgiven & Hheld & _).
  destruct (collect_get_stored _ _ _ _ _ _ _ F rs s1 Hinv1 Hheld) as [s2 Hget].
  exists {| ProjectResource.Projects := List.map ProjectResource.fromResponse rs;
            ProjectResource.Id := ProjectResource.Id data |}, s2.
  repeat split.
  - rewrite project_Update_eq by exact Hd. now rewrite Hc.
  - rewrite project_Read_eq by reflexivity.
    cbn [ProjectResource.Projects ProjectResource.Id]. rewrite collect_map.
    change (collect _ rs [] s1)
      with (collect (fun r => bitwarden.Projects_Get client (bitwarden.pID r)) rs [] s1).
    now rewrite Hget.
  - cbn [ProjectResource.Projects]. clear -Hgiven.
    induction Hgiven as [| it r items rs' [[Hn Ho] Hk] _ IH]; [constructor |].
    constructor; [| exact IH].
    unfold projectUpdatedAs, ProjectResource.fromResponse. cbn in *.
    now rewrite Hn, Ho, Hk.
Qed.

(** Against a client that stores the projects it is given, its Create
    taking the organization first and the name second as sdk-go declares
    it, [Create] followed by [Read] of the state [Create] wrote returns
    that state, under the generated tracking id, and in it the name and
    the organization of every project are exchanged: [Create] passes the
    name first. *)
Theorem project_round_trip :
  forall (holds : St -> bitwarden.ProjectResponse -> Prop)
         (F : FaithfulProjectsSdk client Inv holds)
         (data : ProjectResource.ProjectResourceModel) (resourceId : string)
         (diags : diag.Diagnostics) (s s1 : St)
         (rs : list bitwarden.ProjectResponse),
    diag.HasError diags = false ->
    Inv s ->
    collect
      (fun project =>
         bitwarden.Projects_Create client
           (types.ValueString (ProjectResource.Name project))
           (types.ValueString (ProjectResource.OrganizationId project)))
      (ProjectResource.Projects data) [] s = (Ok rs, s1) ->
    exists created s2,
      ProjectResource.Create client (resourceId, None) (data, diags) s
        = (Returns {| Diagnostics := diags; State := Some created |}, s1)
      /\ ProjectResource.Read client (created, []) s1
         = (Returns {| Diagnostics := []; State := Some created |}, s2)
      /\ ProjectResource.Id created = types.StringValue resourceId
      /\ Forall2 projectReadBackSwapped (ProjectResource.Projects data)
           (ProjectResource.Projects created).
Proof.
  intros holds F data resourceId diags s s1 rs Hd Hinv Hcreate.
  destruct (collect_create_faithful _ _ _ _ _ _ F
              (fun project : ProjectResource.projectItemModel =>
                 (types.ValueString (ProjectResource.Name project),
                  types.ValueString (ProjectResource.OrganizationId project)))
              (ProjectResource.Projects data) s rs s1 Hinv Hcreate)
    as (Hinv1 & Hgiven & Hheld & _).
  destruct (collect_get_faithful _ _ _ _ _ _ F rs s1 Hinv1 Hheld) as [s2 Hget].
  exists {| ProjectResource.Projects := List.map ProjectResource.fromResponse rs;
            ProjectResource.Id := types.StringValue resourceId |}, s2.
  refine (conj _ (conj _ (conj _ _))).
  - rewrite project_Create_eq by exact Hd.
    unfold ProjectResource.createCall. now rewrite Hcreate.
  - rewrite project_Read_eq by reflexivity.
    cbn [ProjectResource.Projects ProjectResource.Id]. rewrite collect_map.
    change (collect _ rs [] s1)
      with (collect (fun r => bitwarden.Projects_Get client (bitwarden.pID r)) rs [] s1).
    now rewrite Hget.
  - reflexivity.
  - cbn [ProjectResource.Projects]. clear -Hgiven.
    induction Hgiven as [| it r items rs' [Ho Hn] _ IH]; [constructor |].
    constructor; [| exact IH].
    unfold projectReadBackSwapped, ProjectResource.fromResponse. cbn in *.
    now rewrite Ho, Hn.
Qed.

(** Against a client that stores the secrets it is given, [Read] is
    idempotent on what [Create] wrote: the state comes back unchanged,
    so with the planned key, value, note and organization and still
    without the project. *)
Theorem secret_round_trip :
  forall (holds : St -> bitwarden.SecretResponse -> Prop)
         (F : FaithfulSecrets client Inv holds)
         (data : SecretResource.SecretResourceModel) (resourceId : string)
         (diags : diag.Diagnostics) (s s1 : St)
         (rs : list bitwarden.SecretResponse),
    diag.HasError diags = false ->
    Inv s ->
    collect (SecretResource.createCall client)
      (SecretResource.Secrets data) [] s = (Ok rs, s1) ->
    exists created s2,
      SecretResource.Create client (resourceId, None) (data, diags) s
        = (Returns {| Diagnostics := diags; State := Some created |}, s1)
      /\ SecretResource.Read client (created, []) s1
         = (Returns {| Diagnostics := []; State := Some created |}, s2)
      /\ SecretResource.Id created = types.StringValue resourceId
      /\ Forall2 secretReadBack (SecretResource.Secrets data)
           (SecretResource.Secrets created).
Proof.
  intros holds F data resourceId diags s s1 rs.
  exact (secret_Create_then_Read client Inv holds F data resourceId diags s s1 rs).
Qed.

End FaithfulClientMore.

(** ** The in-memory client applies the updates it is given *)

Lemma lookup_map {A B : Type} (f : A -> B) (l : list A) (k : nat) :
  List.map f l !! k = f <$> (l !! k).
Proof.
  revert k. induction l as [| x rest IH]; intros [| k]; cbn; auto.
Qed.

Lemma memory_FaithfulProjectUpdates :
  FaithfulProjectUpdates memory.client memory.wellFormed memory.holdsProject.
Proof.
  assert (Hget : forall id st res st',
             memory.Projects_Get id st = (res, st') -> st' = st).
  { intros id st res st'. unfold memory.Projects_Get.
    destruct (memory.findProject id st); now intros [= _ <-]. }
  split.
  - intros [[id org] name] st res st' [Hs Hp]. cbn.
    unfold memory.Projects_Update.
    destruct (memory.findProject id st) as [old |]; intros [= _ <-];
      [| now split].
    split; cbn; [exact Hs |].
    intros k p. rewrite lookup_map.
    destruct (memory.projects st !! k) as [q |] eqn:Eq; [| discriminate].
    cbn. intros [= <-]. specialize (Hp k q Eq).
    destruct (str_eq (bitwarden.pID q) id) eqn:E; [| exact Hp].
    apply str_eq_true in E. cbn. rewrite <- E. exact Hp.
  - intros id st res st' Hwf H. cbn in H. now rewrite (Hget _ _ _ _ H).
  - intros [[id org] name] st r st' _. cbn. unfold memory.Projects_Update.
    destruct (memory.findProject id st) as [old |] eqn:Ef; [| discriminate].
    intros [= <- <-]. repeat split.
    unfold memory.holdsProject. cbn.
    apply List.find_some in Ef as [Hin Hid].
    apply in_map_iff. exists old. now rewrite Hid.
  - intros [[id org] name] st res st' r0 _ H0 Hne. cbn in *.
    unfold memory.Projects_Update.
    destruct (memory.findProject id st) as [old |]; intros [= _ <-];
      [| exact H0].
    unfold memory.holdsProject in *. cbn.
    apply in_map_iff. exists r0. split; [| exact H0].
    destruct (str_eq (bitwarden.pID r0) id) eqn:E; [| reflexivity].
    apply str_eq_true in E. contradiction.
  - intros st r [_ Hp] Hr. exists st. cbn.
    unfold memory.Projects_Get, memory.findProject.
    now rewrite (find_by_position bitwarden.pID memory.projectId projectId_inj r
                   (memory.projects st) 0 Hp Hr).
  - intros id st res st' r0 _ H0 H. cbn in H. now rewrite (Hget _ _ _ _ H).
Qed.

Lemma oneEach_wellFormed : memory.wellFormed oneEach.
Proof.
  split; intros [| k] x; cbn; try (now intros [= <-]);
    now rewrite lookup_nil.
Qed.

(** ** From the provider to the resources and data sources *)

Section HandOver.
Import BitwardenSecretsProvider.
Context {Client : Type} (sdk : Sdk Client) (getenv : Environ).

(** What a run that returns leaves in the two fields. *)
Lemma Configure_stored (request : ConfigureRequest) (r : ConfigureResponse Client) :
  outcome (Configure sdk getenv request) = Returns r ->
  ResourceData r = DataSourceData r
  /\ (succeeded (Configure sdk getenv request) = true ->
      exists c, DataSourceData r = Some c).
Proof.
  destruct request as [[config diags]].
  destruct (diag.HasError diags) eqn:Hd;
    [| destruct (allKnown config) eqn:Hk;
       [destruct (String.eqb_spec (resolvedAccessToken getenv config) "") as [Ht | Ht] |]].
  1, 2, 4:
    (destruct (Configure_gate sdk getenv config diags) as (ds & Hrun & He);
     [auto |];
     rewrite Hrun; unfold succeeded; cbn [outcome];
     intros [= <-]; split; [reflexivity |];
     cbn [Diagnostics onlyDiags]; rewrite He; discriminate).
  rewrite Configure_past_gates by assumption. cbv zeta.
  destruct (NewBitwardenClient sdk _ _) as [[c |] err]; cbn [outcome];
    [| discriminate].
  intros [= <-]. split; [reflexivity |]. intros _. now exists c.
Qed.

(** The four [Configure] methods of the resources and data sources take
    what the provider's [Configure] stored.  If it stored a client, which
    it has whenever it succeeded, that client becomes theirs; if it
    stored nothing, they keep what they had.  In both cases they report
    nothing.  Handed a value of another type, they keep what they had
    and report its type. *)
Theorem Configure_hands_client_over :
  forall (request : ConfigureRequest) (r : ConfigureResponse Client)
         (before : option Client),
    outcome (Configure sdk getenv request) = Returns r ->
    projectDataSource.Configure before (handedOver (DataSourceData r))
      = (clientAfter before (DataSourceData r), [])
    /\ secretDataSource.Configure before (handedOver (DataSourceData r))
       = (clientAfter before (DataSourceData r), [])
    /\ ProjectResource.Configure before (handedOver (ResourceData r))
       = (clientAfter before (DataSourceData r), [])
    /\ SecretResource.Configure before (handedOver (ResourceData r))
       = (clientAfter before (DataSourceData r), [])
    /\ (succeeded (Configure sdk getenv request) = true ->
        exists c, clientAfter before (DataSourceData r) = Some c)
    /\ (forall goType,
          projectDataSource.Configure before (ProviderOther goType)
          = (before,
             [unexpectedType "Unexpected Data Source Configure Type"
                "Expected *bitwarden.BitwardenClientInterface" goType])
          /\ secretDataSource.Configure before (ProviderOther goType)
             = (before,
                [unexpectedType "Unexpected Data Source Configure Type"
                   "Expected *bitwarden.BitwardenClientInterface" goType])
          /\ ProjectResource.Configure before (ProviderOther goType)
             = (before,
                [unexpectedType "Unexpected Resource Configure Type"
                   "Expected bitwarden.BitwardenClientInterface" goType])
          /\ SecretResource.Configure before (ProviderOther goType)
             = (before,
                [unexpectedType "Unexpected Resource Configure Type"
                   "Expected bitwarden.BitwardenClientInterface" goType])).
Proof.
  intros request r before Hr.
  destruct (Configure_stored request r Hr) as [Hsame Hsome].
  rewrite Hsame.
  repeat split; try (destruct (DataSourceData r); reflexivity).
  intros Hok. destruct (Hsome Hok) as [c Hc]. exists c. now rewrite Hc.
Qed.

End HandOver.

(** ** Empty requests and the project data source *)

Section Edges.
Context {St : Type} (client : bitwarden.BitwardenClientInterface St).

(** A request that lists nothing makes no client call (the service is
    left as it was) and still writes a state: the empty list under the
    request's id for the data sources and for [Read] and [Update], under
    the generated tracking id for [Create]. *)
Theorem empty_requests :
  forall diags : diag.Diagnostics,
    diag.HasError diags = false ->
    (forall id s,
        projectDataSource.Read client
          {| projectDataSource.Projects := []; projectDataSource.ID := id |} s
        = (Returns
             {| Diagnostics := [];
                State := Some {| projectDataSource.Projects := [];
                                 projectDataSource.ID := id |} |}, s))
    /\ (forall id s,
        secretDataSource.Read client
          {| secretDataSource.Secrets := []; secretDataSource.ID := id |} s
        = (Returns
             {| Diagnostics := [];
                State := Some {| secretDataSource.Secrets := [];
                                 secretDataSource.ID := id |} |}, s))
    /\ (forall uuid id s,
        ProjectResource.Create client uuid
          ({| ProjectResource.Projects := []; ProjectResource.Id := id |}, diags) s
        = (Returns
             {| Diagnostics := afterUUID uuid diags;
                State := Some {| ProjectResource.Projects := [];
                                 ProjectResource.Id := types.StringValue (fst uuid) |} |},
           s))
    /\ (forall id s,
        ProjectResource.Read client
          ({| ProjectResource.Projects := []; ProjectResource.Id := id |}, diags) s
        = (Returns
             {| Diagnostics := diags;
                State := Some {| ProjectResource.Projects := [];
                                 ProjectResource.Id := id |} |}, s))
    /\ (forall id s,
        ProjectResource.Update client
          ({| ProjectResource.Projects := []; ProjectResource.Id := id |}, diags) s
        = (Returns
             {| Diagnostics := diags;
                State := Some {| ProjectResource.Projects := [];
                                 ProjectResource.Id := id |} |}, s))
    /\ (forall uuid id s,
        SecretResource.Create client uuid
          ({| SecretResource.Secrets := []; SecretResource.Id := id |}, diags) s
        = (Returns
             {| Diagnostics := afterUUID uuid diags;
                State := Some {| SecretResource.Secrets := [];
                                 SecretResource.Id := types.StringValue (fst uuid) |} |},
           s))
    /\ (forall id s,
        SecretResource.Read client
          ({| SecretResource.Secrets := []; SecretResource.Id := id |}, diags) s
        = (Returns
             {| Diagnostics := diags;
                State := Some {| SecretResource.Secrets := [];
                                 SecretResource.Id := id |} |}, s))
    /\ (forall id s,
        SecretResource.Update client
          ({| SecretResource.Secrets := []; SecretResource.Id := id |}, diags) s
        = (Returns
             {| Diagnostics := diags;
                State := Some {| SecretResource.Secrets := [];
                                 SecretResource.Id := id |} |}, s)).
Proof.
  intros diags Hd.
  repeat split; intros;
    rewrite ?project_Create_eq, ?project_Read_eq, ?project_Update_eq,
      ?secret_Create_eq, ?secret_Read_eq, ?secret_Update_eq by exact Hd;
    reflexivity.
Qed.

(** The project data source stops at the first lookup that fails: the
    later ids are not looked up, no state is written, and the one
    diagnostic is the same whatever the client's message was. *)
Theorem projectDataSource_Read_stops_at_first_error :
  forall (pre post : list projectDataSource.projectModel) x id
         (s s1 s2 : St) rs e,
    collect (projectDataSource.getCall client) pre [] s = (Ok rs, s1) ->
    projectDataSource.getCall client x s1 = (Err e, s2) ->
    projectDataSource.Read client
      {| projectDataSource.Projects := pre ++ x :: post;
         projectDataSource.ID := id |} s =
      (Returns
         {| Diagnostics :=
              [diag.mkDiagnostic diag.SeverityError None
                 "Unable to list projects under organization id"
                 "Validate that the organization id is not empty and is valid."];
            State := None |},
       s2).
Proof.
  intros pre post x id s s1 s2 rs e Hpre Hx.
  unfold projectDataSource.Read. cbn [projectDataSource.Projects].
  rewrite project_readLoop_collect.
  now rewrite (collect_first_error _ pre post x s s1 s2 rs e Hpre Hx).
Qed.

End Edges.

(** Seen through the SDK's signature, a client that stores the name and
    the organization it is given stores them in the SDK's order. *)
Lemma sdkOrder_faithful {St : Type}
    (client : bitwarden.BitwardenClientInterface St) (Inv : St -> Prop)
    (holds : St -> bitwarden.ProjectResponse -> Prop) :
  FaithfulProjects client Inv holds ->
  FaithfulProjectsSdk (sdkOrder client) Inv holds.
Proof.
  intros [Hci Hgi Hcs Hck Hgr Hgk]. split.
  - intros [organizationID name] s res s'. exact (Hci (name, organizationID) s res s').
  - exact Hgi.
  - intros [organizationID name] s r s' Hinv Hc.
    destruct (Hcs (name, organizationID) s r s' Hinv Hc) as [[Hn Ho] Hh].
    now repeat split.
  - intros [organizationID name] s res s' r0.
    exact (Hck (name, organizationID) s res s' r0).
  - exact Hgr.
  - exact Hgk.
Qed.

(** ** The further properties at concrete inputs *)

(** An unknown api URL: the run stops, nothing is called or stored. *)
Lemma Configure_gates_make_no_call_witness :
  exists r,
    BitwardenSecretsProvider.Configure alwaysUp fullEnv (request apiUnknown) =
      {| BitwardenSecretsProvider.outcome := Returns r;
         BitwardenSecretsProvider.calls := [] |}
    /\ diag.HasError (BitwardenSecretsProvider.Diagnostics r) = true
    /\ BitwardenSecretsProvider.DataSourceData r = None
    /\ BitwardenSecretsProvider.ResourceData r = None.
Proof.
  apply (Configure_gates_make_no_call alwaysUp fullEnv apiUnknown []).
  right. left. reflexivity.
Defined.

(** An unknown api URL is the one diagnostic of the run. *)
Lemma Configure_reports_every_unknown_witness :
  exists r,
    BitwardenSecretsProvider.outcome
      (BitwardenSecretsProvider.Configure alwaysUp fullEnv (request apiUnknown))
    = Returns r
    /\ BitwardenSecretsProvider.Diagnostics r = [] ++ unknownDiagnostics apiUnknown
    /\ List.length (unknownDiagnostics apiUnknown) = 1 + 0 + 0.
Proof.
  exact (Configure_reports_every_unknown alwaysUp fullEnv apiUnknown []
           eq_refl eq_refl).
Defined.

(** A refused login on the example configuration. *)
Lemma Configure_login_error_keeps_client_witness :
  exists r,
    BitwardenSecretsProvider.outcome
      (BitwardenSecretsProvider.Configure loginRefused noEnv (request tok123))
    = Returns r
    /\ diag.HasError (BitwardenSecretsProvider.Diagnostics r) = true
    /\ BitwardenSecretsProvider.DataSourceData r
       = Some ("https://api.bitwarden.com/api",
               "https://identity.bitwarden.com/connect/token/identity/connect/token").
Proof.
  assert (Htok : BitwardenSecretsProvider.resolvedAccessToken noEnv tok123 <> "")
    by discriminate.
  eexists. split.
  - exact (Configure_login_error_keeps_client loginRefused noEnv tok123 [] _
             "invalid access token" eq_refl eq_refl Htok eq_refl eq_refl).
  - split; reflexivity.
Defined.

(** A plan that could not be decoded creates nothing. *)
Lemma resource_callbacks_decode_gate_witness :
  SecretResource.Create memory.client ("id", None)
    (oneSecret "db_password" "hunter2" "rotate" "org-1" "p", decodeFailed)
    memory.empty
  = (Returns {| Diagnostics := decodeFailed; State := None |}, memory.empty).
Proof.
  destruct (resource_callbacks_decode_gate memory.client unit memory.deleter
              decodeFailed eq_refl)
    as (_ & _ & _ & _ & Hcreate & _).
  apply Hcreate.
Defined.

(** A refresh of the stored project keeps one element and the id. *)
Lemma resource_callbacks_keep_shape_witness :
  exists r m,
    ProjectResource.Read memory.client (renameStored "infra", []) oneEach
    = (Returns r, oneEach)
    /\ State r = Some m
    /\ List.length (ProjectResource.Projects m) = 1
    /\ ProjectResource.Id m = types.StringValue "tracking".
Proof.
  destruct (resource_callbacks_keep_shape memory.client) as (_ & Hread & _).
  eexists _, _. split; [reflexivity | split; [reflexivity |]].
  exact (Hread (renameStored "infra") [] oneEach _ oneEach _ eq_refl eq_refl).
Defined.

(** A refresh of the stored project and of one that is gone stops at
    the second lookup. *)
Lemma resource_callbacks_stop_at_first_error_witness :
  ProjectResource.Read memory.client
    ({| ProjectResource.Projects :=
          [trackedProject "p"] ++ trackedProject "gone" :: [trackedProject "p"];
        ProjectResource.Id := types.StringValue "tracking" |}, [])
    oneEach
  = (Returns
       {| Diagnostics :=
            [] ++ [diag.mkDiagnostic diag.SeverityError None
                     "Error creating project"
                     ("Could not find project, unexpected error: "
                      ++ "project not found")];
          State := None |},
     oneEach).
Proof.
  destruct (resource_callbacks_stop_at_first_error memory.client [] eq_refl)
    as (_ & Hread & _).
  apply (Hread (types.StringValue "tracking") [trackedProject "p"]
           [trackedProject "p"] (trackedProject "gone") oneEach oneEach oneEach
           [storedProject] "project not found"); reflexivity.
Defined.

(** An update of the stored secret writes the project back. *)
Lemma secret_Update_writes_responses_witness :
  exists secrets,
    SecretResource.Update memory.client (updateStored "hunter3", []) oneEach
    = (Returns
         {| Diagnostics := [];
            State := Some {| SecretResource.Secrets := secrets;
                             SecretResource.Id := types.StringValue "tracking" |} |},
       {| memory.projects := [storedProject];
          memory.secrets :=
            [bitwarden.mkSecretResponse "s" "db_password" "hunter3" "rotate"
               "org-1" (Some "p")] |})
    /\ List.map SecretResource.ProjectId secrets = [types.StringValue "p"].
Proof.
  destruct (secret_Update_writes_responses memory.client (updateStored "hunter3")
              [] oneEach
              {| memory.projects := [storedProject];
                 memory.secrets :=
                   [bitwarden.mkSecretResponse "s" "db_password" "hunter3"
                      "rotate" "org-1" (Some "p")] |}
              [bitwarden.mkSecretResponse "s" "db_password" "hunter3" "rotate"
                 "org-1" (Some "p")]
              eq_refl eq_refl)
    as (secrets & Hupdate & Hall).
  { constructor; [discriminate | constructor]. }
  exists secrets. split; [exact Hupdate |].
  inversion Hall as [| r m rs ms (p & Hp & Hm) Hrest]; subst.
  inversion Hrest; subst. cbn in Hp. injection Hp as <-. reflexivity.
Defined.

(** A refresh of the stored secret forgets its project. *)
Lemma secret_Create_Read_null_project_witness :
  exists m,
    fst (SecretResource.Read memory.client (updateStored "hunter2", []) oneEach)
    = Returns {| Diagnostics := []; State := Some m |}
    /\ Forall (fun item => SecretResource.ProjectId item = types.StringNull)
         (SecretResource.Secrets m).
Proof.
  eexists. split; [reflexivity |].
  destruct (secret_Create_Read_null_project memory.client) as [_ Hread].
  eapply (Hread (updateStored "hunter2", []) oneEach); reflexivity.
Defined.

(** Deleting the stored project empties the store of projects. *)
Lemma Delete_is_one_batch_call_witness :
  exists r,
    ProjectResource.Delete memory.deleter (renameStored "infra", []) oneEach
    = (Returns r, {| memory.projects := []; memory.secrets := [storedSecret] |})
    /\ State r = None
    /\ (diag.HasError (Diagnostics r) = true
        <-> exists e,
              fst (memory.Projects_Delete
                     (ProjectResource.idsToDelete (renameStored "infra")) oneEach)
              = Err e).
Proof.
  destruct (Delete_is_one_batch_call memory.deleter [] eq_refl) as [Hproject _].
  exact (Hproject (renameStored "infra") oneEach).
Defined.

(** Renaming the stored project. *)
Lemma project_Update_then_Read_witness :
  exists updated s2,
    ProjectResource.Update memory.client (renameStored "platform", []) oneEach
    = (Returns {| Diagnostics := []; State := Some updated |},
       {| memory.projects :=
            [bitwarden.mkProjectResponse "p" "platform" "org-1" "2024-01-01"
               "2024-01-02"];
          memory.secrets := [storedSecret] |})
    /\ ProjectResource.Read memory.client (updated, [])
         {| memory.projects :=
              [bitwarden.mkProjectResponse "p" "platform" "org-1" "2024-01-01"
                 "2024-01-02"];
            memory.secrets := [storedSecret] |}
       = (Returns {| Diagnostics := []; State := Some updated |}, s2)
    /\ ProjectResource.Id updated = types.StringValue "tracking"
    /\ Forall2 projectUpdatedAs
         (ProjectResource.Projects (renameStored "platform"))
         (ProjectResource.Projects updated).
Proof.
  apply (project_Update_then_Read memory.client memory.wellFormed
           memory.holdsProject memory_FaithfulProjectUpdates
           (renameStored "platform") [] oneEach _
           [bitwarden.mkProjectResponse "p" "platform" "org-1" "2024-01-01"
              "2024-01-02"]).
  - reflexivity.
  - exact oneEach_wellFormed.
  - cbn. apply NoDup_cons. split; [apply not_elem_of_nil | apply NoDup_nil_2].
  - reflexivity.
Defined.

(** Creating the project "infra" of organization "org-1" in the empty
    store, through the SDK's signature, and reading it back: the state
    has the name "org-1" and the organization "infra". *)
Lemma project_round_trip_witness :
  exists s2,
    ProjectResource.Create (sdkOrder memory.client) ("tracking", None)
      (oneProject "infra" "org-1", []) memory.empty
    = (Returns
         {| Diagnostics := [];
            State :=
              Some {| ProjectResource.Projects :=
                        [{| ProjectResource.Name := types.StringValue "org-1";
                            ProjectResource.ProjectId := types.StringValue "p";
                            ProjectResource.OrganizationId :=
                              types.StringValue "infra" |}];
                      ProjectResource.Id := types.StringValue "tracking" |} |},
       {| memory.projects := [bitwarden.mkProjectResponse "p" "org-1" "infra" "" ""];
          memory.secrets := [] |})
    /\ ProjectResource.Read (sdkOrder memory.client)
         ({| ProjectResource.Projects :=
               [{| ProjectResource.Name := types.StringValue "org-1";
                   ProjectResource.ProjectId := types.StringValue "p";
                   ProjectResource.OrganizationId := types.StringValue "infra" |}];
             ProjectResource.Id := types.StringValue "tracking" |}, [])
         {| memory.projects := [bitwarden.mkProjectResponse "p" "org-1" "infra" "" ""];
            memory.secrets := [] |}
       = (Returns
            {| Diagnostics := [];
               State :=
                 Some {| ProjectResource.Projects :=
                           [{| ProjectResource.Name := types.StringValue "org-1";
                               ProjectResource.ProjectId := types.StringValue "p";
                               ProjectResource.OrganizationId :=
                                 types.StringValue "infra" |}];
                         ProjectResource.Id := types.StringValue "tracking" |} |},
          s2).
Proof.
  destruct (project_round_trip (sdkOrder memory.client) memory.wellFormed
              memory.holdsProject
              (sdkOrder_faithful memory.client memory.wellFormed
                 memory.holdsProject memory_FaithfulProjects)
              (oneProject "infra" "org-1") "tracking" [] memory.empty
              {| memory.projects :=
                   [bitwarden.mkProjectResponse "p" "org-1" "infra" "" ""];
                 memory.secrets := [] |}
              [bitwarden.mkProjectResponse "p" "org-1" "infra" "" ""]
              eq_refl memory_empty_wellFormed eq_refl)
    as (created & s2 & Hcreate & Hread & _ & _).
  assert (Hc : created =
                 {| ProjectResource.Projects :=
                      [{| ProjectResource.Name := types.StringValue "org-1";
                          ProjectResource.ProjectId := types.StringValue "p";
                          ProjectResource.OrganizationId :=
                            types.StringValue "infra" |}];
                    ProjectResource.Id := types.StringValue "tracking" |}).
  { cbv in Hcreate. now injection Hcreate as <-. }
  subst created. exists s2. split; [exact Hcreate | exact Hread].
Defined.

(** Creating one secret in the empty store and reading it back. *)
Lemma secret_round_trip_witness :
  exists created s2,
    SecretResource.Create memory.client ("tracking", None)
      (oneSecret "db_password" "hunter2" "rotate" "org-1" "p", []) memory.empty
    = (Returns {| Diagnostics := []; State := Some created |},
       {| memory.projects := []; memory.secrets := [storedSecret] |})
    /\ SecretResource.Read memory.client (created, [])
         {| memory.projects := []; memory.secrets := [storedSecret] |}
       = (Returns {| Diagnostics := []; State := Some created |}, s2)
    /\ SecretResource.Id created = types.StringValue "tracking"
    /\ Forall2 secretReadBack
         (SecretResource.Secrets
            (oneSecret "db_password" "hunter2" "rotate" "org-1" "p"))
         (SecretResource.Secrets created).
Proof.
  apply (secret_round_trip memory.client memory.wellFormed memory.holdsSecret
           memory_FaithfulSecrets
           (oneSecret "db_password" "hunter2" "rotate" "org-1" "p") "tracking" []
           memory.empty _ [storedSecret]).
  - reflexivity.
  - exact memory_empty_wellFormed.
  - reflexivity.
Defined.

(** After a successful run the data source holds the client the SDK
    built. *)
Lemma Configure_hands_client_over_witness :
  projectDataSource.Configure None
    (handedOver
       (Some ("https://api.bitwarden.com/api",
              "https://identity.bitwarden.com/connect/token/identity/connect/token")))
  = (Some ("https://api.bitwarden.com/api",
           "https://identity.bitwarden.com/connect/token/identity/connect/token"),
     []).
Proof.
  destruct (Configure_hands_client_over alwaysUp noEnv (request tok123)
              {| BitwardenSecretsProvider.Diagnostics := [];
                 BitwardenSecretsProvider.DataSourceData :=
                   Some ("https://api.bitwarden.com/api",
                         "https://identity.bitwarden.com/connect/token/identity/connect/token");
                 BitwardenSecretsProvider.ResourceData :=
                   Some ("https://api.bitwarden.com/api",
                         "https://identity.bitwarden.com/connect/token/identity/connect/token") |}
              None eq_refl)
    as (Hds & _).
  exact Hds.
Defined.

(** A request with nothing in it, against the store of one each. *)
Lemma empty_requests_witness :
  ProjectResource.Create memory.client ("tracking", None)
    ({| ProjectResource.Projects := [];
        ProjectResource.Id := types.StringUnknown |}, [])
    oneEach
  = (Returns
       {| Diagnostics := [];
          State := Some {| ProjectResource.Projects := [];
                           ProjectResource.Id := types.StringValue "tracking" |} |},
     oneEach).
Proof.
  destruct (empty_requests memory.client [] eq_refl) as (_ & _ & Hcreate & _).
  exact (Hcreate ("tracking", None) types.StringUnknown oneEach).
Defined.

(** Looking up the stored project, then one that is not there. *)
Lemma projectDataSource_Read_stops_at_first_error_witness :
  projectDataSource.Read memory.client
    {| projectDataSource.Projects :=
         [projectById "p"] ++ projectById "gone" :: [projectById "p"];
       projectDataSource.ID := types.StringNull |} oneEach
  = (Returns
       {| Diagnostics :=
            [diag.mkDiagnostic diag.SeverityError None
               "Unable to list projects under organization id"
               "Validate that the organization id is not empty and is valid."];
          State := None |},
     oneEach).
Proof.
  apply (projectDataSource_Read_stops_at_first_error memory.client
           [projectById "p"] [projectById "p"] (projectById "gone")
           types.StringNull oneEach oneEach oneEach [storedProject]
           "project not found"); reflexivity.
Defined.

(** ** Type names *)

Lemma append_inj_l (p a b : string) :
  (p ++ a = p ++ b)%string -> a = b.
Proof. induction p as [| c p IH]; cbn; [auto | intros [= H]; auto]. Qed.

(** Whatever the provider's type name, the two data sources are served
    under two different names, and so would the two resources be; but
    the names of the resources the provider registers are one name
    twice, and the project resource's name is not among them. *)
Theorem registered_type_names :
  forall (version : string),
    let name := fst (BitwardenSecretsProvider.Metadata version) in
    List.map (dataSourceTypeName name) BitwardenSecretsProvider.DataSources
      = ["bitwarden_projects"; "bitwarden_secrets"]
    /\ List.map (resourceTypeName name) BitwardenSecretsProvider.Resources
       = ["bitwarden_secret"; "bitwarden_secret"]
    /\ (forall p : string,
          projectDataSource.Metadata p <> secretDataSource.Metadata p
          /\ ProjectResource.Metadata p <> SecretResource.Metadata p
          /\ ~ NoDup (List.map (resourceTypeName p)
                        BitwardenSecretsProvider.Resources)
          /\ ~ In (ProjectResource.Metadata p)
                 (List.map (resourceTypeName p)
                    BitwardenSecretsProvider.Resources)).
Proof.
  intros version name. subst name. cbn [fst BitwardenSecretsProvider.Metadata].
  split; [reflexivity | split; [reflexivity |]].
  intros p.
  assert (Hne : ProjectResource.Metadata p <> SecretResource.Metadata p).
  { unfold ProjectResource.Metadata, SecretResource.Metadata.
    intros H. apply append_inj_l in H. discriminate H. }
  repeat split.
  - unfold projectDataSource.Metadata, secretDataSource.Metadata.
    intros H. apply append_inj_l in H. discriminate H.
  - exact Hne.
  - cbn. intros H. apply NoDup_cons in H as [H _].
    apply H. now left.
  - cbn. intros [H | [H | []]]; now apply Hne.
Qed.
